(** * Orpheus-3B WebUI demo: the placeholder response generator

    A shallow embedding of [src/app.py] ([_build_summary_text] and
    [generate_tts_demo]) together with the parts of the Python runtime the two
    functions call: [str] methods, [textwrap.dedent], binary64 arithmetic,
    [round], the [.2f] format, [json.dumps], [time.time] and
    [random.randint]. *)

From Stdlib Require Import ZArith NArith List Bool Lia String Ascii.
From Stdlib Require Import DecimalPos.
From Stdlib Require Import Floats.SpecFloat.
Import ListNotations.

Set Implicit Arguments.

#[local] Open Scope Z_scope.

(* ===================================================================== *)
(** * Python [str]: sequences of Unicode code points *)
(* ===================================================================== *)

Module PyStr.

(** A Python [str] is a sequence of code points; [len] counts code points,
    not bytes. *)
Definition char := N.
Definition str := list char.

Definition len (s : str) : Z := Z.of_nat (List.length s).

(** ** Source literals

    The string literals of [app.py] are UTF-8 text; [py] decodes a literal
    of this file into the code points Python holds for it. *)

Definition cont (b : N) : N := N.land b 63.

Fixpoint utf8_decode (bs : list N) : list N :=
  match bs with
  | [] => []
  | b :: r =>
      if (b <? 128)%N then b :: utf8_decode r
      else if (b <? 224)%N then
        match r with
        | b1 :: r1 => (N.land b 31 * 64 + cont b1)%N :: utf8_decode r1
        | _ => []
        end
      else if (b <? 240)%N then
        match r with
        | b1 :: b2 :: r2 =>
            (N.land b 15 * 4096 + cont b1 * 64 + cont b2)%N :: utf8_decode r2
        | _ => []
        end
      else
        match r with
        | b1 :: b2 :: b3 :: r3 =>
            (N.land b 7 * 262144 + cont b1 * 4096 + cont b2 * 64 + cont b3)%N
              :: utf8_decode r3
        | _ => []
        end
  end.

Fixpoint bytes_of (s : string) : list N :=
  match s with
  | EmptyString => []
  | String a r => N_of_ascii a :: bytes_of r
  end.

Definition py (s : string) : str := utf8_decode (bytes_of s).

(** ** Named code points *)

Definition TAB : char := 9%N.
Definition LF : char := 10%N.
Definition SPACE : char := 32%N.
Definition QUOTE : char := 34%N.
Definition BACKSLASH : char := 92%N.
(** U+2026 HORIZONTAL ELLIPSIS, the literal of line 45. *)
Definition ELLIPSIS : char := 8230%N.

(** ** [str.strip]

    Without argument, [strip] removes the characters for which
    [str.isspace] holds (Unicode bidirectional types WS, B, S and category
    Zs). *)
Definition isspace (c : char) : bool :=
  ((9 <=? c) && (c <=? 13) || (28 <=? c) && (c <=? 32)
   || (c =? 133) || (c =? 160) || (c =? 5760)
   || (8192 <=? c) && (c <=? 8202)
   || (c =? 8232) || (c =? 8233) || (c =? 8239) || (c =? 8287)
   || (c =? 12288))%N.

Fixpoint lstrip (s : str) : str :=
  match s with
  | [] => []
  | c :: r => if isspace c then lstrip r else s
  end.

Definition rstrip (s : str) : str := rev (lstrip (rev s)).

Definition strip (s : str) : str := rstrip (lstrip s).

(** ** [str.replace] for one-character patterns *)
Definition replace (old new : char) (s : str) : str :=
  map (fun c => if (c =? old)%N then new else c) s.

(** ** Slicing [s[:n]] and [str.startswith] *)
Definition take (n : nat) (s : str) : str := firstn n s.

Fixpoint startswith (s p : str) {struct p} : bool :=
  match p, s with
  | [], _ => true
  | _ :: _, [] => false
  | a :: p', b :: s' => (a =? b)%N && startswith s' p'
  end.

(** ** [str.split(sep)] and [sep.join] for a one-character separator *)
Fixpoint split (sep : char) (s : str) : list str :=
  match s with
  | [] => [[]]
  | c :: r =>
      if (c =? sep)%N then [] :: split sep r
      else match split sep r with
           | l :: ls => (c :: l) :: ls
           | [] => [[c]]
           end
  end.

Fixpoint join (sep : char) (ls : list str) : str :=
  match ls with
  | [] => []
  | [l] => l
  | l :: ls' => l ++ sep :: join sep ls'
  end.

(** [sub in s]: [sub] occurs in [s] as a contiguous run. *)
Fixpoint contains (s sub : str) : bool :=
  startswith s sub
  || match s with
     | [] => false
     | _ :: r => contains r sub
     end.

(** [a == b]. *)
Fixpoint streq (a b : str) : bool :=
  match a, b with
  | [], [] => true
  | x :: a', y :: b' => (x =? y)%N && streq a' b'
  | _, _ => false
  end.

(** Truthiness of a [str]: the empty string is falsy. *)
Definition truthy (s : str) : bool :=
  match s with [] => false | _ => true end.

End PyStr.

Import PyStr.

(* ===================================================================== *)
(** * Python [int] and [float] *)
(* ===================================================================== *)

(** Exceptions the modelled code can meet. *)
Inductive exn := OverflowError | ValueError.

Inductive result (A : Type) :=
| Ok (a : A)
| Raise (e : exn).
Arguments Ok {A} a.
Arguments Raise {A} e.

Module PyFloat.

(** A Python [float] is an IEEE 754 binary64 number: 53 bits of precision,
    exponent of the infinities 1024. The operations are the ones of the
    specification of binary floating-point arithmetic, rounding to nearest,
    ties to even. *)
Definition prec : Z := 53.
Definition emax : Z := 1024.
Definition float := spec_float.

Definition fadd : float -> float -> float := SFadd prec emax.
Definition fsub : float -> float -> float := SFsub prec emax.
Definition fmul : float -> float -> float := SFmul prec emax.
Definition fdiv : float -> float -> float := SFdiv prec emax.
Definition flt : float -> float -> bool := SFltb.
Definition fle : float -> float -> bool := SFleb.
Definition fgt (x y : float) : bool := SFltb y x.

(** [float(n)] for an [int] that does not overflow: the nearest double.
    The only [int] converted here that is not a literal is [len(text)], a
    [Py_ssize_t], far below the overflow threshold of the conversion. *)
Definition of_int (n : Z) : float := binary_normalize prec emax n 0 false.

(** The double nearest to the fraction [n / d]: what [strtod] returns for a
    decimal numeral with digits [n] and [d] a power of ten. *)
Definition of_ratio (s : bool) (n : Z) (d : positive) : float :=
  match n with
  | Zpos p => fdiv (S754_finite s p 0) (S754_finite false d 0)
  | _ => S754_zero s
  end.

(** Float literals [a.b] of the source, read as [digits / 10^places]. *)
Definition literal (digits : Z) (places : nat) : float :=
  of_ratio false digits (Z.to_pos (10 ^ Z.of_nat places)).

(** Builtins [min(a, b)] and [max(a, b)] on floats: the first argument is
    kept unless the second compares strictly smaller (greater). *)
Definition py_min (a b : float) : float := if flt b a then b else a.
Definition py_max (a b : float) : float := if fgt b a then b else a.

(** [int(x)]: truncation towards zero; infinities and NaN raise. *)
Definition py_int (x : float) : result Z :=
  match x with
  | S754_zero _ => Ok 0
  | S754_finite s m e =>
      let v := Z.shiftl (Zpos m) e in
      Ok (if s then - v else v)
  | S754_infinity _ => Raise OverflowError
  | S754_nan => Raise ValueError
  end.

(** ** Exact decimal rounding

    [round_half_even n d] is the integer nearest to [n / d], ties to the
    even one, for [0 <= n] and [0 < d]. *)
Definition round_half_even (n d : Z) : Z :=
  let q := n / d in
  let r := n mod d in
  match 2 * r ?= d with
  | Lt => q
  | Gt => q + 1
  | Eq => if Z.even q then q else q + 1
  end.

(** The magnitude [m * 2^e] as a fraction of integers. *)
Definition magnitude (m : positive) (e : Z) : Z * Z :=
  match e with
  | Zneg k => (Zpos m, 2 ^ Zpos k)
  | _ => (Zpos m * 2 ^ e, 1)
  end.

(** [scaled m e nd] is the magnitude times [10^nd], rounded to an integer:
    the digits of the value correctly rounded to [nd] decimals. *)
Definition scaled (m : positive) (e : Z) (nd : nat) : Z :=
  let '(n, d) := magnitude m e in
  round_half_even (n * 10 ^ Z.of_nat nd) d.

(** [round(x, nd)] for [0 <= nd]: the value is rounded correctly to [nd]
    decimals and the decimal read back as a double; the sign is kept, so a
    small negative number rounds to [-0.0]. Infinities and NaN round to
    themselves. *)
Definition round (x : float) (nd : nat) : float :=
  match x with
  | S754_finite s m e =>
      of_ratio s (scaled m e nd) (Z.to_pos (10 ^ Z.of_nat nd))
  | _ => x
  end.

(** ** Decimal numerals *)

Fixpoint uint_chars (u : Decimal.uint) : str :=
  match u with
  | Decimal.Nil => []
  | Decimal.D0 r => 48%N :: uint_chars r
  | Decimal.D1 r => 49%N :: uint_chars r
  | Decimal.D2 r => 50%N :: uint_chars r
  | Decimal.D3 r => 51%N :: uint_chars r
  | Decimal.D4 r => 52%N :: uint_chars r
  | Decimal.D5 r => 53%N :: uint_chars r
  | Decimal.D6 r => 54%N :: uint_chars r
  | Decimal.D7 r => 55%N :: uint_chars r
  | Decimal.D8 r => 56%N :: uint_chars r
  | Decimal.D9 r => 57%N :: uint_chars r
  end.

(** The decimal digits of a natural number, no leading zero ([0] is "0"). *)
Definition digits (n : Z) : str := uint_chars (N.to_uint (Z.to_N n)).

Definition sign_chars (s : bool) : str := if s then [45%N] else [].

(** [repr] of an [int]. *)
Definition repr_int (n : Z) : str :=
  sign_chars (n <? 0) ++ digits (Z.abs n).

(** [s.zfill(w)] on a string of digits. *)
Definition zfill (w : nat) (s : str) : str :=
  repeat 48%N (w - List.length s) ++ s.

(** ** The format specification [.{nd}f]

    The value is rounded correctly to [nd] decimals and written with all
    of them; the sign of a negative zero is written. *)
Definition fixed (n : Z) (nd : nat) : str :=
  digits (n / 10 ^ Z.of_nat nd)
  ++ match nd with
     | O => []
     | _ => 46%N :: zfill nd (digits (n mod 10 ^ Z.of_nat nd))
     end.

Definition format_f (x : float) (nd : nat) : str :=
  match x with
  | S754_nan => py "nan"
  | S754_infinity s => sign_chars s ++ py "inf"
  | S754_zero s => sign_chars s ++ fixed 0 nd
  | S754_finite s m e => sign_chars s ++ fixed (scaled m e nd) nd
  end.

(** ** [float.__repr__]: the shortest numeral that reads back as the float

    For a positive fraction [n / d], [decpt] is the position of the
    decimal point: [10^(decpt-1) <= n/d < 10^decpt]. *)
Definition lt_pow10 (n d k : Z) : bool :=
  match k with
  | Zneg p => n * 10 ^ Zpos p <? d
  | _ => n <? d * 10 ^ k
  end.

Fixpoint adjust_decpt (fuel : nat) (n d p : Z) : Z :=
  match fuel with
  | O => p
  | S f =>
      if lt_pow10 n d (p - 1) then adjust_decpt f n d (p - 1)
      else if lt_pow10 n d p then p
      else adjust_decpt f n d (p + 1)
  end.

Definition decpt_of (n d : Z) : Z :=
  adjust_decpt 8 n d ((Z.log2 n - Z.log2 d) * 1233 / 4096).

(** [n / d] in units of [10^q], as a fraction. *)
Definition in_units (n d q : Z) : Z * Z :=
  match q with
  | Zneg p => (n * 10 ^ Zpos p, d)
  | _ => (n, d * 10 ^ q)
  end.

(** The double a numeral with digits [D] and exponent [q] reads as. *)
Definition of_decimal (D q : Z) : float :=
  match q with
  | Zneg p => of_ratio false D (Z.to_pos (10 ^ Zpos p))
  | _ => of_int (D * 10 ^ q)
  end.

Definition same_float (x y : float) : bool :=
  match x, y with
  | S754_finite s m e, S754_finite s' m' e' =>
      Bool.eqb s s' && Pos.eqb m m' && Z.eqb e e'
  | _, _ => false
  end.

(** The [k]-digit numeral nearest to [x = n/d] among those that read back
    as [x], if there is one. *)
Definition candidate (x : float) (n d decpt : Z) (k : Z) : option (Z * Z) :=
  let q := decpt - k in
  let '(X, Y) := in_units n d q in
  let lo := X / Y in
  let hi := lo + 1 in
  let ok_lo := same_float (of_decimal lo q) x in
  let ok_hi := same_float (of_decimal hi q) x in
  match ok_lo, ok_hi with
  | true, false => Some (lo, q)
  | false, true => Some (hi, q)
  | false, false => None
  | true, true =>
      match 2 * (X mod Y) ?= Y with
      | Lt => Some (lo, q)
      | Gt => Some (hi, q)
      | Eq => Some (if Z.even lo then lo else hi, q)
      end
  end.

Fixpoint shortest (fuel : nat) (x : float) (n d decpt k : Z) : Z * Z :=
  match fuel with
  | O => let '(X, Y) := in_units n d (decpt - k) in
         (round_half_even X Y, decpt - k)
  | S f =>
      match candidate x n d decpt k with
      | Some r => r
      | None => shortest f x n d decpt (k + 1)
      end
  end.

Fixpoint strip_zeros (fuel : nat) (D q : Z) : Z * Z :=
  match fuel with
  | O => (D, q)
  | S f => if (D mod 10 =? 0) && (0 <? D) then strip_zeros f (D / 10) (q + 1)
           else (D, q)
  end.

(** Layout of the digits [ds] with the decimal point after [decpt] of them:
    positional between [1e-4] and [1e16], with an exponent otherwise. *)
Definition layout (ds : str) (decpt : Z) : str :=
  let nd := Z.of_nat (List.length ds) in
  if (-4 <? decpt) && (decpt <=? 16) then
    if decpt <=? 0 then
      py "0." ++ repeat 48%N (Z.to_nat (- decpt)) ++ ds
    else if nd <=? decpt then
      ds ++ repeat 48%N (Z.to_nat (decpt - nd)) ++ py ".0"
    else
      firstn (Z.to_nat decpt) ds ++ 46%N :: skipn (Z.to_nat decpt) ds
  else
    let ex := decpt - 1 in
    firstn 1 ds
    ++ match skipn 1 ds with [] => [] | r => 46%N :: r end
    ++ 101%N :: (if ex <? 0 then 45%N else 43%N) :: zfill 2 (digits (Z.abs ex)).

Definition repr_finite (s : bool) (m : positive) (e : Z) : str :=
  let '(n, d) := magnitude m e in
  let p := decpt_of n d in
  let '(D, q) := shortest 16 (S754_finite false m e) n d p 1 in
  let '(D', q') := strip_zeros 20 D q in
  let ds := digits D' in
  sign_chars s ++ layout ds (q' + Z.of_nat (List.length ds)).

Definition repr (x : float) : str :=
  match x with
  | S754_nan => py "nan"
  | S754_infinity s => sign_chars s ++ py "inf"
  | S754_zero s => sign_chars s ++ py "0.0"
  | S754_finite s m e => repr_finite s m e
  end.

End PyFloat.

Import PyFloat.

(* ===================================================================== *)
(** * [json.dumps(obj, ensure_ascii=False, indent=2)] *)
(* ===================================================================== *)

Module Json.

(** The values the program serializes: strings, an [int], floats and
    dictionaries with string keys, in insertion order. *)
#[warnings="-register-all"]
Inductive value :=
| JStr (s : str)
| JInt (n : Z)
| JFloat (x : float)
| JDict (items : list (str * value)).

(** [dict.get]-style lookup of a key. *)
Fixpoint get (key : str) (items : list (str * value)) : option value :=
  match items with
  | [] => None
  | (k, v) :: r => if streq k key then Some v else get key r
  end.

Definition keys (items : list (str * value)) : list str := map fst items.

Definition hex_digit (n : N) : char :=
  if (n <? 10)%N then (48 + n)%N else (87 + n)%N.

(** With [ensure_ascii=False] only the quote, the backslash and the control
    characters below U+0020 are escaped. *)
Definition escape_char (c : char) : str :=
  if (c =? QUOTE)%N then [BACKSLASH; QUOTE]
  else if (c =? BACKSLASH)%N then [BACKSLASH; BACKSLASH]
  else if (c =? 8)%N then [BACKSLASH; 98%N]
  else if (c =? 12)%N then [BACKSLASH; 102%N]
  else if (c =? 10)%N then [BACKSLASH; 110%N]
  else if (c =? 13)%N then [BACKSLASH; 114%N]
  else if (c =? 9)%N then [BACKSLASH; 116%N]
  else if (c <? 32)%N then
    [BACKSLASH; 117%N; 48%N; 48%N; hex_digit (c / 16); hex_digit (c mod 16)]
  else [c].

Definition encode_str (s : str) : str :=
  QUOTE :: flat_map escape_char s ++ [QUOTE].

(** Floats are written with [float.__repr__], except the three special
    values. *)
Definition floatstr (x : float) : str :=
  match x with
  | S754_nan => py "NaN"
  | S754_infinity false => py "Infinity"
  | S754_infinity true => py "-Infinity"
  | _ => repr x
  end.

Fixpoint encode (indent level : nat) (v : value) {struct v} : str :=
  match v with
  | JStr s => encode_str s
  | JInt n => repr_int n
  | JFloat x => floatstr x
  | JDict [] => py "{}"
  | JDict items =>
      let newline_indent := LF :: repeat SPACE (indent * S level) in
      let item_separator := 44%N :: newline_indent in
      let fix encode_items (first : bool) (l : list (str * value)) : str :=
        match l with
        | [] => []
        | (k, x) :: r =>
            (if first then [] else item_separator)
            ++ encode_str k ++ py ": " ++ encode indent (S level) x
            ++ encode_items false r
        end in
      123%N :: newline_indent ++ encode_items true items
      ++ LF :: repeat SPACE (indent * level) ++ [125%N]
  end.

Definition dumps (obj : value) (indent : nat) : str := encode indent 0 obj.

End Json.

Import Json.

(* ===================================================================== *)
(** * [textwrap.dedent] *)
(* ===================================================================== *)

Module Textwrap.

(** The regular-expression implementation of the standard library
    (CPython up to 3.13), read line by line: [^] and [$] are in multi-line
    mode, lines end at U+000A. *)

(** The class [[ \t]]. *)
Definition isblank (c : char) : bool := ((c =? SPACE) || (c =? TAB))%N.

(** [_whitespace_only_re.sub('', text)]: a line made of spaces and tabs
    only becomes empty. *)
Definition blank_line (l : str) : str := if forallb isblank l then [] else l.

(** [_leading_whitespace_re.findall(text)]: for each line with a character
    other than space and tab, the run of spaces and tabs it starts with. *)
Fixpoint indent_of (l : str) : option str :=
  match l with
  | [] => None
  | c :: r =>
      if isblank c then
        match indent_of r with Some i => Some (c :: i) | None => None end
      else Some []
  end.

Definition indents (lines : list str) : list str :=
  flat_map (fun l => match indent_of l with Some i => [i] | None => [] end)
           lines.

(** The loop over [zip(margin, indent)]: cut the margin at the first
    position where the two differ. *)
Fixpoint narrow (margin indent : str) : str :=
  match margin, indent with
  | x :: m', y :: i' => if (x =? y)%N then x :: narrow m' i' else []
  | _, _ => margin
  end.

Definition update_margin (margin : option str) (indent : str) : option str :=
  match margin with
  | None => Some indent
  | Some mg =>
      if startswith indent mg then Some mg
      else if startswith mg indent then Some indent
      else Some (narrow mg indent)
  end.

(** [re.sub(r'(?m)^' + margin, '', text)] on one line. *)
Definition remove_margin (margin l : str) : str :=
  if startswith l margin then skipn (List.length margin) l else l.

Definition dedent (text : str) : str :=
  let lines := map blank_line (split LF text) in
  match fold_left update_margin (indents lines) None with
  | Some (c :: mg) => join LF (map (remove_margin (c :: mg)) lines)
  | _ => join LF lines
  end.

End Textwrap.

(* ===================================================================== *)
(** * The world: wall clock and random source *)
(* ===================================================================== *)

(** [time.time()] reads the wall clock, [random.randint] draws from the
    process-wide generator. The world holds what the successive reads and
    draws deliver and how many of each were made. *)
Record World := {
  clock : nat -> float;
  ticks : nat;
  entropy : nat -> Z;
  draws : nat
}.

(** Computations that read the world and may raise. *)
Definition M (A : Type) : Type := World -> result (A * World).

Definition ret {A} (a : A) : M A := fun w => Ok (a, w).

Definition bind {A B} (c : M A) (k : A -> M B) : M B :=
  fun w => match c w with
           | Ok (a, w') => k a w'
           | Raise e => Raise e
           end.

Definition lift {A} (r : result A) : M A :=
  fun w => match r with Ok a => Ok (a, w) | Raise e => Raise e end.

Declare Scope py_scope.
Delimit Scope py_scope with py.
Notation "x <- c ;; k" := (bind c (fun x => k))
  (at level 61, c at next level, right associativity) : py_scope.

Module Time.
(** [time.time()]. *)
Definition time : M float :=
  fun w => Ok (clock w (ticks w),
               {| clock := clock w; ticks := S (ticks w);
                  entropy := entropy w; draws := draws w |}).
End Time.

Module Random.
(** [random.randint(a, b)], for [a <= b]: an integer of [[a, b]] chosen by
    the generator. *)
Definition randint (a b : Z) : M Z :=
  fun w => Ok (a + entropy w (draws w) mod (b - a + 1),
               {| clock := clock w; ticks := ticks w;
                  entropy := entropy w; draws := S (draws w) |}).
End Random.

(* ===================================================================== *)
(** * [app.py] *)
(* ===================================================================== *)

Definition MODEL_NAME : str := py "Orpheus-3B-0.1-ft-Q4_K_M-GGUF".

Definition VOICE_CHOICES : list str := [
  py "tara（通用女声）";
  py "leah（温柔女声）";
  py "jess（明亮女声）";
  py "leo（青年男声）";
  py "dan（沉稳男声）";
  py "mia（活泼女声）";
  py "zac（低沉男声）";
  py "zoe（少年音）"
].

Definition EMOTION_TAGS : list str := [
  py "中性 <neutral>";
  py "愉悦 <laugh>";
  py "悲伤 <cry>";
  py "惊讶 <gasp>";
  py "思考 <hmm>"
].

(** ** [_build_summary_text] *)

(** Lines 43-45: the preview of the input text. *)
Definition preview_of (text : str) : str :=
  let preview := replace LF SPACE (strip text) in
  if 80 <? len preview then take 80 preview ++ [ELLIPSIS] else preview.

(** Lines 48-66: the f-string, with its replacement fields filled in. *)
Definition summary_template (voice emotion : str)
    (speed temperature top_p : float) (preview : str) : str :=
  List.concat [
    [LF];
    py "        【占位合成结果说明】"; [LF];
    [LF];
    py "        当前 WebUI 处于“轻量演示模式”，不会下载或加载任何真实的 Orpheus-3B 权重，也不会向外部服务发送请求。"; [LF];
    py "        下述内容仅用于帮助用户从界面层面理解文本转语音系统的配置方式与感知效果："; [LF];
    [LF];
    py "        · 目标模型："; MODEL_NAME; [LF];
    py "        · 选定音色："; voice; [LF];
    py "        · 情感标签："; emotion; [LF];
    py "        · 语速倍率：约为标准语速的 "; format_f speed 2; py " 倍"; [LF];
    py "        · 采样控制：temperature="; format_f temperature 2;
      py ", top_p="; format_f top_p 2; [LF];
    [LF];
    py "        · 文本摘要:"; [QUOTE; SPACE]; preview; [SPACE; QUOTE]; [LF];
    [LF];
    py "        在真实部署环境中，本区域将展示："; [LF];
    py "        1）生成语音的主观描述（音色、情感、语速等）；"; [LF];
    py "        2）若干客观指标（流式延迟、生成时长、输出长度等）；"; [LF];
    py "        3）与历史合成记录的对比结果，用于评估参数调节带来的差异。"; [LF];
    py "        "
  ].

Definition _build_summary_text (text voice emotion : str)
    (speed temperature top_p : float) : str :=
  let preview := preview_of text in
  strip (Textwrap.dedent
           (summary_template voice emotion speed temperature top_p preview)).

(** ** [generate_tts_demo] *)

Definition RETRY_PROMPT : str :=
  py "请先在左侧输入一段需要合成的文本，再点击下方按钮触发占位推理。".

(** Lines 82-86: the metrics of the empty-input branch. *)
Definition empty_metrics : value :=
  JDict [
    (py "status", JStr (py "empty-input"));
    (py "note", JStr (py "请先在左侧输入待合成的文本。"));
    (py "mode", JStr (py "demo"))
  ].

(** Line 101. *)
Definition pseudo_duration (text : str) : float :=
  py_max (literal 15 1)
         (py_min (literal 180 1) (fdiv (of_int (len text)) (literal 120 1))).

(** Lines 103-116: the metrics of a normal response. *)
Definition ok_metrics (latency_ms : Z) (text voice emotion : str)
    (speed temperature top_p : float) : value :=
  JDict [
    (py "mode", JStr (py "demo"));
    (py "status", JStr (py "ok"));
    (py "latency_ms", JInt latency_ms);
    (py "estimated_audio_duration_s", JFloat (round (pseudo_duration text) 2));
    (py "voice", JStr voice);
    (py "emotion", JStr emotion);
    (py "speed_ratio", JFloat (round speed 2));
    (py "sampling", JDict [
       (py "temperature", JFloat (round temperature 2));
       (py "top_p", JFloat (round top_p 2))
     ]);
    (py "note", JStr (py "当前为占位输出，用于界面与参数调节可视化展示，不调用真实 TTS 模型。"))
  ].

#[local] Open Scope py_scope.

Definition generate_tts_demo (text voice emotion : str)
    (speed temperature top_p : float) : M (str * str) :=
  start <- Time.time ;;
  if negb (truthy text) || negb (truthy (strip text)) then
    ret (RETRY_PROMPT, dumps empty_metrics 2)
  else
    let description :=
      _build_summary_text text voice emotion speed temperature top_p in
    now <- Time.time ;;
    elapsed <- lift (py_int (fmul (fsub now start) (of_int 1000))) ;;
    offset <- Random.randint 50 150 ;;
    let latency_ms := elapsed + offset in
    ret (description,
         dumps (ok_metrics latency_ms text voice emotion
                           speed temperature top_p) 2).

#[local] Close Scope py_scope.

(* ===================================================================== *)
(** * Vocabulary of the specification *)
(* ===================================================================== *)

(** The text is empty or consists only of whitespace. *)
Definition all_space (text : str) : bool := forallb isspace text.

(** [clamp(x, lo, hi)] as the specification writes it. *)
Definition clamp (x lo hi : float) : float :=
  if flt x lo then lo else if fgt x hi then hi else x.

(** The number of characters after the decimal point of a numeral. *)
Definition fraction_digits (numeral : str) : nat :=
  match split 46%N numeral with
  | [_; f] => List.length f
  | _ => O
  end.

(** A string literal between double quotes. *)
Definition quoted (s : str) : str := QUOTE :: s ++ [QUOTE].

(** A clock reading is a finite double of magnitude below [2^62] seconds. *)
Definition reading_ok (t : float) : bool :=
  match t with
  | S754_zero _ => true
  | S754_finite _ m e => (Zpos m <? 2 ^ 53) && (e <=? 9)
  | _ => false
  end.

(** The two readings an invocation makes are such readings. *)
Definition clock_ok (w : World) : bool :=
  reading_ok (clock w (ticks w)) && reading_ok (clock w (S (ticks w))).

(** The measured time of an invocation: line 100 without the offset. *)
Definition elapsed_ms (w : World) : result Z :=
  py_int (fmul (fsub (clock w (S (ticks w))) (clock w (ticks w)))
               (of_int 1000)).

(** The world after an invocation that took the normal path. *)
Definition after_ok (w : World) : World :=
  {| clock := clock w; ticks := S (S (ticks w));
     entropy := entropy w; draws := S (draws w) |}.

(** The world after an invocation that took the empty-input path. *)
Definition after_empty (w : World) : World :=
  {| clock := clock w; ticks := S (ticks w);
     entropy := entropy w; draws := draws w |}.

(** The offset the generator delivers to an invocation. *)
Definition offset_of (w : World) : Z := 50 + entropy w (draws w) mod 101.

(** The result of rounding: the mantissa and exponent it ends with. *)
Definition finish (sx : bool) (m e : Z) : float :=
  match m with
  | Z0 => S754_zero sx
  | Zpos p => if e <=? emax - prec then S754_finite sx p e
              else S754_infinity sx
  | Zneg _ => S754_nan
  end.

(** What a subtraction of two clock readings can give. *)
Definition small (r : float) : Prop :=
  match r with
  | S754_zero _ => True
  | S754_finite _ m e => Zpos m < 2 ^ 53 /\ e <= 11
  | _ => False
  end.

(** [P] holds of [0], ..., [k - 1]. *)
Fixpoint all_upto (k : nat) (P : Z -> bool) : bool :=
  match k with
  | O => true
  | S k' => P (Z.of_nat k') && all_upto k' P
  end.

(** The note of the metrics of a normal response. *)
Definition NOTE_OK : str :=
  py "当前为占位输出，用于界面与参数调节可视化展示，不调用真实 TTS 模型。".

(** The serialized metrics of a normal response, line by line. *)
Definition metrics_text (latency_ms : Z) (text voice emotion : str)
    (speed temperature top_p : float) : str :=
  join LF [
    [123%N];
    repeat SPACE 2 ++ encode_str (py "mode") ++ py ": "
      ++ encode_str (py "demo") ++ [44%N];
    repeat SPACE 2 ++ encode_str (py "status") ++ py ": "
      ++ encode_str (py "ok") ++ [44%N];
    repeat SPACE 2 ++ encode_str (py "latency_ms") ++ py ": "
      ++ repr_int latency_ms ++ [44%N];
    repeat SPACE 2 ++ encode_str (py "estimated_audio_duration_s") ++ py ": "
      ++ floatstr (round (pseudo_duration text) 2) ++ [44%N];
    repeat SPACE 2 ++ encode_str (py "voice") ++ py ": "
      ++ encode_str voice ++ [44%N];
    repeat SPACE 2 ++ encode_str (py "emotion") ++ py ": "
      ++ encode_str emotion ++ [44%N];
    repeat SPACE 2 ++ encode_str (py "speed_ratio") ++ py ": "
      ++ floatstr (round speed 2) ++ [44%N];
    repeat SPACE 2 ++ encode_str (py "sampling") ++ py ": " ++ [123%N];
    repeat SPACE 4 ++ encode_str (py "temperature") ++ py ": "
      ++ floatstr (round temperature 2) ++ [44%N];
    repeat SPACE 4 ++ encode_str (py "top_p") ++ py ": "
      ++ floatstr (round top_p 2);
    repeat SPACE 2 ++ [125%N; 44%N];
    repeat SPACE 2 ++ encode_str (py "note") ++ py ": " ++ encode_str NOTE_OK;
    [125%N]
  ].


(** Sample inputs: the first voice and emotion of the interface, and a
    voice and an emotion outside its lists. *)
Definition TARA : str := py "tara（通用女声）".
Definition NEUTRAL : str := py "中性 <neutral>".
Definition HELLO : str := py "你好".

(** A world whose clock advances by one second per reading. *)
Definition steady_world : World :=
  {| clock := fun i => of_int (1700000000 + Z.of_nat i); ticks := O;
     entropy := fun _ => 7; draws := O |}.

(** A world whose clock is set back by one second between two readings. *)
Definition set_back_world : World :=
  {| clock := fun i => of_int (1700000000 - Z.of_nat i); ticks := O;
     entropy := fun _ => 7; draws := O |}.

(** A voice with a blank line inside. *)
Definition TWO_PARAGRAPHS : str := [97%N; LF; SPACE; LF; 98%N].

(** Eighty-odd characters of which most are surrounding whitespace. *)
Definition PADDED : str :=
  repeat SPACE 3 ++ py "hello" ++ [LF] ++ py "world" ++ repeat SPACE 80.

(** The labels of the three lines, as the description shows them. *)
Definition VOICE_LABEL : str := py "· 选定音色：".
Definition EMOTION_LABEL : str := py "· 情感标签：".
Definition PREVIEW_LABEL : str := py "· 文本摘要:".

(** The estimated duration as a function of the length of the text. *)
Definition duration_at (n : Z) : float :=
  round (py_max (literal 15 1)
                (py_min (literal 180 1) (fdiv (of_int n) (literal 120 1)))) 2.

(** The string starts with a character other than space and tab. *)
Definition starts_visible (s : str) : bool :=
  match s with
  | c :: _ => negb (Textwrap.isblank c)
  | [] => false
  end.

(** What [dedent] makes of a line when the margin is [mg]: a line of spaces
    and tabs becomes empty, a line indented by [mg] loses it. *)
Definition dedented (mg l out : str) : Prop :=
  (forallb Textwrap.isblank l = true /\ out = [])
  \/ (l = mg ++ out /\ starts_visible out = true).

(** The string starts with a character that [strip] keeps. *)
Definition starts_nonspace (s : str) : bool :=
  match s with
  | c :: _ => negb (isspace c)
  | [] => false
  end.

(** The lines of the description, for a voice and an emotion of one line
    each: the template of lines 48-66 without its margin of eight spaces
    and without its first and last line. *)
Definition description_lines (voice emotion : str)
    (speed temperature top_p : float) (preview : str) : list str := [
  py "【占位合成结果说明】";
  [];
  py "当前 WebUI 处于“轻量演示模式”，不会下载或加载任何真实的 Orpheus-3B 权重，也不会向外部服务发送请求。";
  py "下述内容仅用于帮助用户从界面层面理解文本转语音系统的配置方式与感知效果：";
  [];
  py "· 目标模型：" ++ MODEL_NAME;
  py "· 选定音色：" ++ voice;
  py "· 情感标签：" ++ emotion;
  py "· 语速倍率：约为标准语速的 " ++ format_f speed 2 ++ py " 倍";
  py "· 采样控制：temperature=" ++ format_f temperature 2
    ++ py ", top_p=" ++ format_f top_p 2;
  [];
  py "· 文本摘要:" ++ QUOTE :: SPACE :: preview ++ [SPACE; QUOTE];
  [];
  py "在真实部署环境中，本区域将展示：";
  py "1）生成语音的主观描述（音色、情感、语速等）；";
  py "2）若干客观指标（流式延迟、生成时长、输出长度等）；";
  py "3）与历史合成记录的对比结果，用于评估参数调节带来的差异。"
].

(** A decimal digit. *)
Definition is_digit (c : char) : bool := ((48 <=? c) && (c <=? 57))%N.

(** The float is a number: a zero or a finite value. *)
Definition is_number (x : float) : bool :=
  match x with
  | S754_zero _ | S754_finite _ _ _ => true
  | _ => false
  end.

(** The sign bit of a float. *)
Definition negative (x : float) : bool :=
  match x with
  | S754_zero s | S754_finite s _ _ | S754_infinity s => s
  | S754_nan => false
  end.

(** A numeral without its last character when that is a zero. *)
Definition shorten (numeral : str) : str :=
  match rev numeral with
  | 48%N :: r => rev r
  | _ => numeral
  end.

(** A clock reading after the epoch: a positive normal double below [2^62]
    seconds. *)
Definition reading_normal (t : float) : bool :=
  match t with
  | S754_finite false m e =>
      (2 ^ 52 <=? Zpos m) && (Zpos m <? 2 ^ 53) && (e <=? 9)
  | _ => false
  end.

(** Sample inputs: whitespace around a text, two texts of 18 and 19
    characters, and the double [1.5]. *)
Definition LEADING : str := [SPACE; LF].
Definition TRAILING : str := [TAB].
Definition EIGHTEEN : str := repeat 97%N 18.
Definition NINETEEN : str := repeat 97%N 19.
Definition ONE_AND_HALF : float := S754_finite false 6755399441055744 (-52).

(** The world after the two clock readings of an invocation, at the point
    where line 100 calls [random.randint]. *)
Definition after_readings (w : World) : World :=
  {| clock := clock w; ticks := S (S (ticks w));
     entropy := entropy w; draws := draws w |}.

(** The world [w] with a generator that delivers [e] at every draw. *)
Definition with_entropy (w : World) (e : Z) : World :=
  {| clock := clock w; ticks := ticks w;
     entropy := fun _ => e; draws := draws w |}.

(** The number of [i] among [0], ..., [k - 1] of which [P] holds. *)
Fixpoint count_upto (k : nat) (P : Z -> bool) : nat :=
  match k with
  | O => O
  | S k' => ((if P (Z.of_nat k') then 1 else 0) + count_upto k' P)%nat
  end.

(* ===================================================================== *)
(** * Strings *)
(* ===================================================================== *)

Section Strings.

Lemma streq_refl a : streq a a = true.
Proof. induction a as [|x a IH]; simpl; [reflexivity|]. rewrite N.eqb_refl; exact IH. Qed.

Lemma streq_eq a : forall b, streq a b = true -> a = b.
Proof.
  induction a as [|x a IH]; intros [|y b]; simpl; try discriminate; [reflexivity|].
  intros H. apply andb_true_iff in H as [H1 H2].
  apply N.eqb_eq in H1. f_equal; [exact H1|apply IH; exact H2].
Qed.

Lemma startswith_app p : forall r, startswith (p ++ r) p = true.
Proof.
  induction p as [|a p IH]; intros r; simpl; [reflexivity|].
  rewrite N.eqb_refl. apply IH.
Qed.

Lemma contains_intro sub pre : forall post,
  contains (pre ++ sub ++ post) sub = true.
Proof.
  induction pre as [|a pre IH]; intros post.
  - simpl app. destruct (sub ++ post) eqn:E; simpl;
      rewrite <- E, startswith_app; reflexivity.
  - simpl. rewrite IH. apply orb_true_r.
Qed.

Lemma lstrip_all_space s : all_space s = true -> lstrip s = [].
Proof.
  induction s as [|c s IH]; simpl; [reflexivity|].
  intros H. apply andb_true_iff in H as [H1 H2]. rewrite H1. apply IH, H2.
Qed.

Lemma strip_all_space s : all_space s = true -> strip s = [].
Proof. intros H. unfold strip. rewrite lstrip_all_space by exact H. reflexivity. Qed.

Lemma lstrip_keeps pre c rest : isspace c = false ->
  exists pre', lstrip (pre ++ c :: rest) = pre' ++ c :: rest.
Proof.
  intros Hc. induction pre as [|a pre IH]; simpl.
  - rewrite Hc. exists []. reflexivity.
  - destruct (isspace a); [exact IH|]. exists (a :: pre). reflexivity.
Qed.

Lemma rstrip_keeps x c post : isspace c = false ->
  exists post', rstrip (x ++ c :: post) = x ++ c :: post'.
Proof.
  intros Hc. unfold rstrip.
  rewrite rev_app_distr. simpl rev. rewrite <- app_assoc. simpl app.
  destruct (@lstrip_keeps (rev post) c (rev x) Hc) as [pre' E].
  rewrite E, rev_app_distr. simpl rev. rewrite rev_involutive, <- app_assoc.
  exists (rev pre'). reflexivity.
Qed.

(** Stripping keeps a run that starts with a visible character and is
    followed, somewhere, by another visible character. *)
Lemma strip_keeps pre c body t1 c2 t2 :
  isspace c = false -> isspace c2 = false ->
  exists pre' post',
    strip (pre ++ (c :: body) ++ t1 ++ c2 :: t2)
    = pre' ++ (c :: body) ++ post'.
Proof.
  intros Hc Hc2. unfold strip.
  destruct (@lstrip_keeps pre c (body ++ t1 ++ c2 :: t2) Hc) as [pre' E].
  simpl app. rewrite E.
  replace (pre' ++ c :: body ++ t1 ++ c2 :: t2)
    with ((pre' ++ c :: body ++ t1) ++ c2 :: t2)
    by (rewrite <- app_assoc; simpl; rewrite <- app_assoc; reflexivity).
  destruct (@rstrip_keeps (pre' ++ c :: body ++ t1) c2 t2 Hc2) as [post' E'].
  rewrite E'. exists pre', (t1 ++ c2 :: post').
  rewrite <- app_assoc. simpl. rewrite <- app_assoc. reflexivity.
Qed.

Lemma lstrip_visible s : all_space s = false ->
  exists c r, lstrip s = c :: r /\ isspace c = false.
Proof.
  induction s as [|a s IH]; simpl; [discriminate|].
  destruct (isspace a) eqn:Ha; simpl.
  - exact IH.
  - intros _. exists a, s. split; [reflexivity|exact Ha].
Qed.

Lemma strip_visible s : all_space s = false -> truthy (strip s) = true.
Proof.
  intros H. destruct (lstrip_visible s H) as (c & r & E & Hc).
  unfold strip. rewrite E.
  destruct (@rstrip_keeps [] c r Hc) as [post' E']. simpl app in E'.
  rewrite E'. reflexivity.
Qed.

Lemma truthy_visible s : all_space s = false -> truthy s = true.
Proof. destruct s; [discriminate|reflexivity]. Qed.

Lemma replace_length old new s : List.length (replace old new s) = List.length s.
Proof. apply length_map. Qed.

Lemma replace_absent new s : new <> LF -> ~ In LF (replace LF new s).
Proof.
  intros Hn. induction s as [|c s IH]; simpl; [tauto|].
  intros [H|H]; [|exact (IH H)].
  destruct (c =? LF)%N eqn:E; [congruence|].
  apply N.eqb_neq in E. congruence.
Qed.

Lemma split_nonempty sep s : split sep s <> [].
Proof.
  destruct s as [|c r]; simpl; [discriminate|].
  destruct (c =? sep)%N; [discriminate|]. destruct (split sep r); discriminate.
Qed.

Lemma split_app sep a : forall b,
  split sep (a ++ sep :: b) = split sep a ++ split sep b.
Proof.
  induction a as [|c a IH]; intros b; simpl.
  - rewrite N.eqb_refl. reflexivity.
  - destruct (c =? sep)%N.
    + rewrite IH. reflexivity.
    + rewrite IH. pose proof (split_nonempty sep a) as Hn.
      destruct (split sep a); [congruence|reflexivity].
Qed.

Lemma split_line sep l : ~ In sep l -> split sep l = [l].
Proof.
  induction l as [|c l IH]; simpl; intros H; [reflexivity|].
  destruct (c =? sep)%N eqn:E.
  - apply N.eqb_eq in E. tauto.
  - rewrite IH by tauto. reflexivity.
Qed.

Lemma join_at sep X : forall l Y,
  join sep (X ++ l :: Y)
  = flat_map (fun x => x ++ [sep]) X ++ l ++ flat_map (cons sep) Y.
Proof.
  induction X as [|x X IH]; intros l Y.
  - simpl app. revert l. induction Y as [|y Y IHY]; intros l; simpl.
    + rewrite app_nil_r. reflexivity.
    + simpl in IHY. rewrite IHY. reflexivity.
  - change ((x :: X) ++ l :: Y) with (x :: (X ++ l :: Y)).
    simpl join. destruct (X ++ l :: Y) eqn:E.
    + destruct X; discriminate.
    + rewrite <- E, IH. simpl. rewrite <- !app_assoc. reflexivity.
Qed.

End Strings.

(* ===================================================================== *)
(** * [textwrap.dedent] only touches the margin *)
(* ===================================================================== *)

Section Dedent.

Import Textwrap.

Let blank (s : str) : Prop := forallb isblank s = true.

Lemma indent_of_blank l : forall i, indent_of l = Some i -> blank i.
Proof.
  unfold blank. induction l as [|c l IH]; simpl; intros i; [discriminate|].
  destruct (isblank c) eqn:Hc.
  - destruct (indent_of l) as [i'|]; [|discriminate].
    intros H; inversion H; subst. simpl. rewrite Hc. apply IH; reflexivity.
  - intros H; inversion H; reflexivity.
Qed.

Lemma indents_blank lines : Forall blank (indents lines).
Proof.
  unfold indents. induction lines as [|l ls IH]; simpl; [constructor|].
  destruct (indent_of l) as [i|] eqn:E; simpl; [|exact IH].
  constructor; [exact (indent_of_blank l E)|exact IH].
Qed.

Lemma narrow_blank mg : forall i, blank mg -> blank (narrow mg i).
Proof.
  unfold blank. induction mg as [|x mg IH]; intros [|y i] H; simpl in *; try exact H.
  apply andb_true_iff in H as [H1 H2].
  destruct (x =? y)%N; [|reflexivity]. simpl. rewrite H1. apply IH, H2.
Qed.

Lemma update_margin_blank acc i :
  match acc with Some mg => blank mg | None => True end -> blank i ->
  match update_margin acc i with Some mg => blank mg | None => True end.
Proof.
  destruct acc as [mg|]; simpl; intros Ha Hi; [|exact Hi].
  destruct (startswith i mg); [exact Ha|].
  destruct (startswith mg i); [exact Hi|].
  apply narrow_blank, Ha.
Qed.

Lemma margin_blank l : forall acc,
  Forall blank l ->
  match acc with Some mg => blank mg | None => True end ->
  match fold_left update_margin l acc with
  | Some mg => blank mg
  | None => True
  end.
Proof.
  induction l as [|i l IH]; intros acc Hl Ha; simpl; [exact Ha|].
  inversion Hl; subst. apply IH; [assumption|].
  apply update_margin_blank; assumption.
Qed.

Lemma blank_line_keeps ind c body :
  isblank c = false -> blank_line (ind ++ c :: body) = ind ++ c :: body.
Proof.
  intros Hc. unfold blank_line. rewrite forallb_app. simpl.
  rewrite Hc, andb_false_r. reflexivity.
Qed.

Lemma remove_margin_keeps mg : forall ind c body,
  blank mg -> isblank c = false ->
  exists ind', remove_margin mg (ind ++ c :: body) = ind' ++ c :: body.
Proof.
  unfold remove_margin, blank.
  induction mg as [|a mg IH]; intros ind c body Hm Hc.
  - exists ind. reflexivity.
  - simpl in Hm. apply andb_true_iff in Hm as [Ha Hm].
    destruct ind as [|b ind]; simpl.
    + destruct (a =? c)%N eqn:E.
      * apply N.eqb_eq in E. congruence.
      * exists []. reflexivity.
    + destruct (a =? b)%N; simpl.
      * destruct (IH ind c body Hm Hc) as [ind' E].
        destruct (startswith (ind ++ c :: body) mg).
        -- exists ind'. exact E.
        -- exists (b :: ind). reflexivity.
      * exists (b :: ind). reflexivity.
Qed.

(** [dedent] rewrites the text line by line, and on a line with a visible
    character it removes nothing but leading spaces and tabs. *)
Lemma dedent_lines text :
  exists h, dedent text = join LF (map h (split LF text))
    /\ forall ind c body, isblank c = false ->
         exists ind', h (ind ++ c :: body) = ind' ++ c :: body.
Proof.
  unfold dedent.
  pose proof (@margin_blank (indents (map blank_line (split LF text))) None
                (indents_blank _) I) as Hb.
  destruct (fold_left update_margin (indents (map blank_line (split LF text))) None)
    as [[|a mg]|].
  - exists blank_line. split; [reflexivity|].
    intros ind c body Hc. exists ind. apply blank_line_keeps, Hc.
  - exists (fun l => remove_margin (a :: mg) (blank_line l)). split.
    + rewrite map_map. reflexivity.
    + intros ind c body Hc. rewrite blank_line_keeps by exact Hc.
      apply remove_margin_keeps; assumption.
  - exists blank_line. split; [reflexivity|].
    intros ind c body Hc. exists ind. apply blank_line_keeps, Hc.
Qed.

(** A line that starts, after its indentation, with a visible character and
    is followed further down by another such line survives [dedent] and the
    final [strip] from its first visible character on. *)
Lemma strip_dedent_keeps A ind c body B ind2 c2 body2 C :
  isblank c = false -> isspace c = false -> ~ In LF (ind ++ c :: body) ->
  isblank c2 = false -> isspace c2 = false -> ~ In LF (ind2 ++ c2 :: body2) ->
  contains
    (strip (dedent (A ++ LF :: (ind ++ c :: body) ++ LF :: B
                      ++ LF :: (ind2 ++ c2 :: body2) ++ LF :: C)))
    (c :: body) = true.
Proof.
  intros Hb Hs Hn Hb2 Hs2 Hn2.
  destruct (dedent_lines (A ++ LF :: (ind ++ c :: body) ++ LF :: B
                            ++ LF :: (ind2 ++ c2 :: body2) ++ LF :: C))
    as (h & Hd & Hk).
  rewrite Hd.
  rewrite split_app, split_app, (@split_line LF _ Hn), split_app, split_app,
    (@split_line LF _ Hn2).
  rewrite !map_app. simpl map.
  destruct (Hk ind c body Hb) as [i1 E1].
  destruct (Hk ind2 c2 body2 Hb2) as [i2 E2].
  rewrite E1, E2. simpl app.
  rewrite join_at.
  rewrite flat_map_app. simpl flat_map.
  match goal with
  | |- contains (strip (?P ++ _ ++ ?Q ++ LF :: _ ++ ?R)) _ = true =>
      replace (P ++ (i1 ++ c :: body) ++ Q ++ LF :: (i2 ++ c2 :: body2) ++ R)
        with ((P ++ i1) ++ (c :: body) ++ (Q ++ LF :: i2) ++ c2 :: (body2 ++ R));
      [ destruct (@strip_keeps (P ++ i1) c body (Q ++ LF :: i2) c2 (body2 ++ R)
                    Hs Hs2) as (pre' & post' & E)
      | repeat rewrite <- app_assoc; simpl; repeat rewrite <- app_assoc;
        reflexivity ]
  end.
  rewrite E. apply contains_intro.
Qed.

End Dedent.

(* ===================================================================== *)
(** * The description block *)
(* ===================================================================== *)

(** Reassociate appends to the right. *)
Ltac normalize_app :=
  repeat (progress (repeat rewrite <- app_assoc; cbn [app])).

(** Turn the literals into variables, so that rewriting does not compute
    with them. *)
Ltac abstract_literals :=
  repeat match goal with
         | |- context [py ?s] => generalize (py s); intro
         end;
  generalize MODEL_NAME; intro.

Section Description.

Lemma no_lf_check l : forallb (fun c => negb (c =? LF)%N) l = true -> ~ In LF l.
Proof.
  induction l as [|c l IH]; simpl; [tauto|].
  intros H. apply andb_true_iff in H as [H1 H2].
  intros [E|E]; [|exact (IH H2 E)].
  subst c. discriminate H1.
Qed.

Lemma preview_no_lf text : ~ In LF (preview_of text).
Proof.
  unfold preview_of.
  assert (H : ~ In LF (replace LF SPACE (strip text)))
    by (apply replace_absent; discriminate).
  destruct (80 <? len (replace LF SPACE (strip text))); [|exact H].
  intros Hin. apply in_app_or in Hin as [Hin|Hin].
  - apply H. rewrite <- (firstn_skipn 80). apply in_or_app. left. exact Hin.
  - simpl in Hin. destruct Hin as [E|[]]. discriminate E.
Qed.

Lemma literal_voice_line :
  py "        · 选定音色：" = repeat SPACE 8 ++ 183%N :: py " 选定音色：".
Proof. vm_compute. reflexivity. Qed.

Lemma literal_emotion_line :
  py "        · 情感标签：" = repeat SPACE 8 ++ 183%N :: py " 情感标签：".
Proof. vm_compute. reflexivity. Qed.

Lemma literal_preview_line :
  py "        · 文本摘要:" = repeat SPACE 8 ++ 183%N :: py " 文本摘要:".
Proof. vm_compute. reflexivity. Qed.

Lemma literal_anchor_line :
  py "        在真实部署环境中，本区域将展示："
  = repeat SPACE 8 ++ 22312%N :: py "真实部署环境中，本区域将展示：".
Proof. vm_compute. reflexivity. Qed.

(** The template, cut at the line of the voice. *)
Lemma template_at_voice voice emotion speed temperature top_p preview :
  summary_template voice emotion speed temperature top_p preview
  = List.concat [
      [LF];
      py "        【占位合成结果说明】"; [LF];
      [LF];
      py "        当前 WebUI 处于“轻量演示模式”，不会下载或加载任何真实的 Orpheus-3B 权重，也不会向外部服务发送请求。"; [LF];
      py "        下述内容仅用于帮助用户从界面层面理解文本转语音系统的配置方式与感知效果："; [LF];
      [LF];
      py "        · 目标模型："; MODEL_NAME ]
    ++ LF :: (repeat SPACE 8 ++ 183%N :: py " 选定音色：" ++ voice)
    ++ LF :: List.concat [
      py "        · 情感标签："; emotion; [LF];
      py "        · 语速倍率：约为标准语速的 "; format_f speed 2; py " 倍"; [LF];
      py "        · 采样控制：temperature="; format_f temperature 2;
        py ", top_p="; format_f top_p 2; [LF];
      [LF];
      py "        · 文本摘要:"; [QUOTE; SPACE]; preview; [SPACE; QUOTE]; [LF] ]
    ++ LF :: (repeat SPACE 8 ++ 22312%N :: py "真实部署环境中，本区域将展示：")
    ++ LF :: List.concat [
      py "        1）生成语音的主观描述（音色、情感、语速等）；"; [LF];
      py "        2）若干客观指标（流式延迟、生成时长、输出长度等）；"; [LF];
      py "        3）与历史合成记录的对比结果，用于评估参数调节带来的差异。"; [LF];
      py "        " ].
Proof.
  unfold summary_template.
  rewrite literal_voice_line, literal_anchor_line.
  abstract_literals.
  cbn [List.concat]. normalize_app. reflexivity.
Qed.

(** The template, cut at the line of the emotion. *)
Lemma template_at_emotion voice emotion speed temperature top_p preview :
  summary_template voice emotion speed temperature top_p preview
  = List.concat [
      [LF];
      py "        【占位合成结果说明】"; [LF];
      [LF];
      py "        当前 WebUI 处于“轻量演示模式”，不会下载或加载任何真实的 Orpheus-3B 权重，也不会向外部服务发送请求。"; [LF];
      py "        下述内容仅用于帮助用户从界面层面理解文本转语音系统的配置方式与感知效果："; [LF];
      [LF];
      py "        · 目标模型："; MODEL_NAME; [LF];
      py "        · 选定音色："; voice ]
    ++ LF :: (repeat SPACE 8 ++ 183%N :: py " 情感标签：" ++ emotion)
    ++ LF :: List.concat [
      py "        · 语速倍率：约为标准语速的 "; format_f speed 2; py " 倍"; [LF];
      py "        · 采样控制：temperature="; format_f temperature 2;
        py ", top_p="; format_f top_p 2; [LF];
      [LF];
      py "        · 文本摘要:"; [QUOTE; SPACE]; preview; [SPACE; QUOTE]; [LF] ]
    ++ LF :: (repeat SPACE 8 ++ 22312%N :: py "真实部署环境中，本区域将展示：")
    ++ LF :: List.concat [
      py "        1）生成语音的主观描述（音色、情感、语速等）；"; [LF];
      py "        2）若干客观指标（流式延迟、生成时长、输出长度等）；"; [LF];
      py "        3）与历史合成记录的对比结果，用于评估参数调节带来的差异。"; [LF];
      py "        " ].
Proof.
  unfold summary_template.
  rewrite literal_emotion_line, literal_anchor_line.
  abstract_literals.
  cbn [List.concat]. normalize_app. reflexivity.
Qed.

(** The template, cut at the line of the preview. *)
Lemma template_at_preview voice emotion speed temperature top_p preview :
  summary_template voice emotion speed temperature top_p preview
  = List.concat [
      [LF];
      py "        【占位合成结果说明】"; [LF];
      [LF];
      py "        当前 WebUI 处于“轻量演示模式”，不会下载或加载任何真实的 Orpheus-3B 权重，也不会向外部服务发送请求。"; [LF];
      py "        下述内容仅用于帮助用户从界面层面理解文本转语音系统的配置方式与感知效果："; [LF];
      [LF];
      py "        · 目标模型："; MODEL_NAME; [LF];
      py "        · 选定音色："; voice; [LF];
      py "        · 情感标签："; emotion; [LF];
      py "        · 语速倍率：约为标准语速的 "; format_f speed 2; py " 倍"; [LF];
      py "        · 采样控制：temperature="; format_f temperature 2;
        py ", top_p="; format_f top_p 2; [LF] ]
    ++ LF :: (repeat SPACE 8 ++ 183%N :: py " 文本摘要:" ++ QUOTE :: SPACE
                :: preview ++ [SPACE; QUOTE])
    ++ LF :: []
    ++ LF :: (repeat SPACE 8 ++ 22312%N :: py "真实部署环境中，本区域将展示：")
    ++ LF :: List.concat [
      py "        1）生成语音的主观描述（音色、情感、语速等）；"; [LF];
      py "        2）若干客观指标（流式延迟、生成时长、输出长度等）；"; [LF];
      py "        3）与历史合成记录的对比结果，用于评估参数调节带来的差异。"; [LF];
      py "        " ].
Proof.
  unfold summary_template.
  rewrite literal_preview_line, literal_anchor_line.
  abstract_literals.
  cbn [List.concat]. normalize_app. reflexivity.
Qed.

Lemma no_lf_app a b : ~ In LF a -> ~ In LF b -> ~ In LF (a ++ b).
Proof. intros Ha Hb H. apply in_app_or in H. tauto. Qed.

Lemma no_lf_cons c b : c <> LF -> ~ In LF b -> ~ In LF (c :: b).
Proof. intros Hc Hb [H|H]; tauto. Qed.

Ltac no_lf :=
  match goal with
  | |- ~ In LF (_ ++ _) => apply no_lf_app; no_lf
  | |- ~ In LF (_ :: _) => apply no_lf_cons; [discriminate|no_lf]
  | |- ~ In LF (preview_of _) => apply preview_no_lf
  | |- ~ In LF [] => simpl; tauto
  | |- _ => assumption
  | |- _ => apply no_lf_check; vm_compute; reflexivity
  end.

Lemma description_has_voice text voice emotion speed temperature top_p :
  ~ In LF voice ->
  contains (_build_summary_text text voice emotion speed temperature top_p)
           (VOICE_LABEL ++ voice) = true.
Proof.
  intros Hv. unfold _build_summary_text. rewrite template_at_voice.
  replace (VOICE_LABEL ++ voice) with (183%N :: py " 选定音色：" ++ voice)
    by (assert (E : VOICE_LABEL = 183%N :: py " 选定音色：")
          by (vm_compute; reflexivity); rewrite E; reflexivity).
  apply strip_dedent_keeps; first [reflexivity|no_lf].
Qed.

Lemma description_has_emotion text voice emotion speed temperature top_p :
  ~ In LF emotion ->
  contains (_build_summary_text text voice emotion speed temperature top_p)
           (EMOTION_LABEL ++ emotion) = true.
Proof.
  intros Hv. unfold _build_summary_text. rewrite template_at_emotion.
  replace (EMOTION_LABEL ++ emotion) with (183%N :: py " 情感标签：" ++ emotion)
    by (assert (E : EMOTION_LABEL = 183%N :: py " 情感标签：")
          by (vm_compute; reflexivity); rewrite E; reflexivity).
  apply strip_dedent_keeps; first [reflexivity|no_lf].
Qed.

Lemma description_has_preview text voice emotion speed temperature top_p :
  contains (_build_summary_text text voice emotion speed temperature top_p)
           (PREVIEW_LABEL ++ QUOTE :: SPACE :: preview_of text ++ [SPACE; QUOTE])
  = true.
Proof.
  unfold _build_summary_text. rewrite template_at_preview.
  replace (PREVIEW_LABEL ++ QUOTE :: SPACE :: preview_of text ++ [SPACE; QUOTE])
    with (183%N :: py " 文本摘要:" ++ QUOTE :: SPACE
            :: preview_of text ++ [SPACE; QUOTE])
    by (assert (E : PREVIEW_LABEL = 183%N :: py " 文本摘要:")
          by (vm_compute; reflexivity); rewrite E; reflexivity).
  apply strip_dedent_keeps; first [reflexivity|no_lf].
Qed.

End Description.

(* ===================================================================== *)
(** * Binary64 arithmetic *)
(* ===================================================================== *)

Section Binary64.

Lemma shr_1_m mrs : 0 <= shr_m mrs -> shr_m (shr_1 mrs) = shr_m mrs / 2.
Proof.
  destruct mrs as [m r s]; simpl; intros H.
  rewrite <- Z.div2_div.
  destruct m as [|[p|p|]|p]; simpl; try reflexivity; lia.
Qed.

Lemma shr_iter_m p : forall mrs, 0 <= shr_m mrs ->
  shr_m (iter_pos shr_1 p mrs) = shr_m mrs / 2 ^ Zpos p.
Proof.
  induction p as [p IH|p IH|]; intros mrs H; simpl iter_pos.
  - assert (H1 : 0 <= shr_m (shr_1 mrs)) by (rewrite shr_1_m by lia; apply Z.div_pos; lia).
    assert (H2 : 0 <= shr_m (iter_pos shr_1 p (shr_1 mrs))) by (rewrite IH by lia; apply Z.div_pos; lia).
    rewrite IH, IH, shr_1_m by lia.
    rewrite !Z.div_div by lia.
    f_equal. replace (Zpos p~1) with (1 + Zpos p + Zpos p) by lia.
    rewrite !Z.pow_add_r by lia. lia.
  - assert (H2 : 0 <= shr_m (iter_pos shr_1 p mrs)) by (rewrite IH by lia; apply Z.div_pos; lia).
    rewrite IH, IH by lia.
    rewrite !Z.div_div by lia.
    f_equal. replace (Zpos p~0) with (Zpos p + Zpos p) by lia.
    rewrite !Z.pow_add_r by lia. lia.
  - rewrite shr_1_m by lia. reflexivity.
Qed.

Lemma shr_record_of_loc_m m l : shr_m (shr_record_of_loc m l) = m.
Proof. destruct l as [|[]]; reflexivity. Qed.

Lemma shr_fexp_spec m e l : 0 <= m ->
  let E := Z.max e (fexp prec emax (Zdigits2 m + e)) in
  snd (shr_fexp prec emax m e l) = E /\
  shr_m (fst (shr_fexp prec emax m e l)) = m / 2 ^ (E - e).
Proof.
  intros Hm E. unfold shr_fexp, shr.
  destruct (fexp prec emax (Zdigits2 m + e) - e) as [|k|k] eqn:Hk; simpl.
  - replace (E - e) with 0 by lia. rewrite shr_record_of_loc_m, Z.div_1_r. split; lia.
  - rewrite shr_iter_m by (rewrite shr_record_of_loc_m; lia).
    rewrite shr_record_of_loc_m. replace (E - e) with (Zpos k) by lia. split; [lia|reflexivity].
  - replace (E - e) with 0 by lia. rewrite shr_record_of_loc_m, Z.div_1_r. split; lia.
Qed.

Lemma digits2_bounds p :
  2 ^ (Zpos (digits2_pos p) - 1) <= Zpos p < 2 ^ Zpos (digits2_pos p).
Proof.
  induction p as [p IH|p IH|]; simpl digits2_pos.
  - rewrite Pos2Z.inj_succ. replace (Z.succ (Zpos (digits2_pos p)) - 1) with (Z.succ (Zpos (digits2_pos p) - 1)) by lia.
    rewrite !Z.pow_succ_r by lia. lia.
  - rewrite Pos2Z.inj_succ. replace (Z.succ (Zpos (digits2_pos p)) - 1) with (Z.succ (Zpos (digits2_pos p) - 1)) by lia.
    rewrite !Z.pow_succ_r by lia. lia.
  - simpl. lia.
Qed.

Lemma digits2_unique m k : 2 ^ (k - 1) <= m < 2 ^ k -> 0 < k -> Zdigits2 m = k.
Proof.
  intros [H1 H2] Hk.
  assert (0 < m) by (pose proof (Z.pow_pos_nonneg 2 (k - 1)); lia).
  destruct m as [|p|p]; try lia. simpl.
  pose proof (digits2_bounds p) as [B1 B2].
  destruct (Z.lt_trichotomy (Zpos (digits2_pos p)) k) as [Hlt|[Heq|Hgt]]; [|assumption|].
  - assert (2 ^ Zpos (digits2_pos p) <= 2 ^ (k - 1)) by (apply Z.pow_le_mono_r; lia). lia.
  - assert (2 ^ k <= 2 ^ (Zpos (digits2_pos p) - 1)) by (apply Z.pow_le_mono_r; lia). lia.
Qed.

Lemma rne_bounds m l : m <= round_nearest_even m l <= m + 1.
Proof. destruct l as [|[]]; simpl; try lia. destruct (Z.even m); lia. Qed.

Lemma bra_shape sx p ex lx :
  let E := Z.max ex (fexp prec emax (Zdigits2 (Zpos p) + ex)) in
  exists m3 e3,
    binary_round_aux prec emax sx (Zpos p) ex lx = finish sx m3 e3
    /\ 0 <= m3 < 2 ^ 53 /\ E <= e3 <= E + 1
    /\ (Zdigits2 (Zpos p) + ex - 53 = E -> 2 ^ 52 <= m3).
Proof.
  intros E. unfold binary_round_aux.
  pose proof (@shr_fexp_spec (Zpos p) ex lx ltac:(lia)) as [He1 Hm1]. fold E in He1, Hm1.
  destruct (shr_fexp prec emax (Zpos p) ex lx) as [mrs1 e1]. simpl in He1, Hm1. subst e1.
  set (m1 := shr_m mrs1) in *.
  pose proof (digits2_bounds p) as [Dl Du]. 
  set (d := Zpos (digits2_pos p)) in *.
  assert (HE : d + ex - 53 <= E /\ ex <= E /\ -1074 <= E).
  { unfold E, fexp, emin, prec, emax. simpl Zdigits2. fold d. lia. }
  assert (Hm1u : 0 <= m1 < 2 ^ 53).
  { rewrite Hm1. split. apply Z.div_pos; [lia|apply Z.pow_pos_nonneg; lia].
    apply Z.div_lt_upper_bound. apply Z.pow_pos_nonneg; lia.
    rewrite <- Z.pow_add_r by lia.
    assert (2 ^ d <= 2 ^ (E - ex + 53)) by (apply Z.pow_le_mono_r; lia). lia. }
  assert (Hm1l : d + ex - 53 = E -> 2 ^ 52 <= m1).
  { intros Hn. rewrite Hm1. apply Z.div_le_lower_bound. apply Z.pow_pos_nonneg; lia.
    rewrite <- Z.pow_add_r by lia. replace (E - ex + 52) with (d - 1) by lia. lia. }
  pose proof (rne_bounds m1 (loc_of_shr_record mrs1)) as Hr.
  set (m2 := round_nearest_even m1 (loc_of_shr_record mrs1)) in *.
  pose proof (@shr_fexp_spec m2 E loc_Exact ltac:(lia)) as [He3 Hm3].
  destruct (shr_fexp prec emax m2 E loc_Exact) as [mrs3 e3]. simpl in He3, Hm3.
  exists (shr_m mrs3), e3. split; [reflexivity|].
  assert (C : m2 = 0 \/ 0 < m2 < 2 ^ 53 \/ m2 = 2 ^ 53) by lia.
  destruct C as [C|[C|C]].
  - assert (e3 = E). { rewrite He3, C. unfold fexp, emin, prec, emax. simpl Zdigits2. lia. }
    subst e3. rewrite Hm3, H, Z.sub_diag, Z.div_1_r. 
    repeat split; try lia; intros Hn; simpl Zdigits2 in Hn; fold d in Hn; specialize (Hm1l Hn); lia.
  - assert (Hd2 : 0 < Zdigits2 m2 <= 53).
    { destruct m2 as [|q|q]; try lia. simpl. pose proof (digits2_bounds q) as [B1 B2].
      split; [lia|]. destruct (Z_le_gt_dec (Zpos (digits2_pos q)) 53); [assumption|].
      assert (2 ^ 53 <= 2 ^ (Zpos (digits2_pos q) - 1)) by (apply Z.pow_le_mono_r; lia). lia. }
    assert (e3 = E). { rewrite He3. unfold fexp, emin, prec, emax. lia. }
    subst e3. rewrite Hm3, H, Z.sub_diag, Z.div_1_r.
    repeat split; try lia; intros Hn; simpl Zdigits2 in Hn; fold d in Hn; specialize (Hm1l Hn); lia.
  - assert (Hd2 : Zdigits2 m2 = 54).
    { apply digits2_unique; [|lia]. rewrite C. simpl. lia. }
    assert (e3 = E + 1). { rewrite He3, Hd2. unfold fexp, emin, prec, emax. lia. }
    subst e3. rewrite Hm3, H, C. replace (E + 1 - E) with 1 by lia. 
    change (2 ^ 53 / 2 ^ 1) with (2 ^ 52). repeat split; try lia.
Qed.

Lemma iter_xO_mul p d : Zpos (Pos.iter xO p d) = Zpos p * 2 ^ Zpos d.
Proof.
  induction d as [|d IH] using Pos.peano_ind.
  - simpl. lia.
  - rewrite Pos.iter_succ, Pos2Z.inj_xO, IH, Pos2Z.inj_succ, Z.pow_succ_r by lia. lia.
Qed.

Lemma of_int_big n : 512 <= n ->
  of_int n = S754_infinity false \/
  exists m e, of_int n = S754_finite false m e
              /\ 2 ^ 52 <= Zpos m < 2 ^ 53 /\ -43 <= e.
Proof.
  intros Hn. destruct n as [|p|p]; try lia.
  unfold of_int, binary_normalize, binary_round.
  pose proof (digits2_bounds p) as [Dl Du].
  set (d := Zpos (digits2_pos p)) in *.
  assert (Hd : 10 <= d).
  { destruct (Z_le_gt_dec 10 d); [assumption|].
    assert (2 ^ d <= 2 ^ 9) by (apply Z.pow_le_mono_r; lia). lia. }
  assert (Hf : fexp prec emax (d + 0) = d - 53) by (unfold fexp, emin, prec, emax; lia).
  rewrite Hf. unfold shl_align.
  destruct (d - 53 - 0) as [|k|k] eqn:Hk.
  - destruct (@bra_shape false p 0 loc_Exact) as (m3 & e3 & Hb & Hm & He & Hl).
    rewrite Hb. simpl Zdigits2 in *. fold d in He, Hl. rewrite Z.add_0_r in *. rewrite Hf in *.
    specialize (Hl ltac:(lia)).
    destruct m3 as [|q|q]; try lia. unfold finish.
    destruct (e3 <=? _); [right; exists q, e3; repeat split; lia|left; reflexivity].
  - destruct (@bra_shape false p 0 loc_Exact) as (m3 & e3 & Hb & Hm & He & Hl).
    rewrite Hb. simpl Zdigits2 in *. fold d in He, Hl. rewrite Z.add_0_r in *. rewrite Hf in *.
    specialize (Hl ltac:(lia)).
    destruct m3 as [|q|q]; try lia. unfold finish.
    destruct (e3 <=? _); [right; exists q, e3; repeat split; lia|left; reflexivity].
  - assert (Hmz : 2 ^ 52 <= Zpos (Pos.iter xO p k) < 2 ^ 53).
    { rewrite iter_xO_mul. replace 52 with ((d - 1) + Zpos k) by lia.
      replace 53 with (d + Zpos k) by lia.
      rewrite !Z.pow_add_r by lia.
      assert (0 < 2 ^ Zpos k) by (apply Z.pow_pos_nonneg; lia). nia. }
    destruct (@bra_shape false (Pos.iter xO p k) (d - 53) loc_Exact) as (m3 & e3 & Hb & Hm & He & Hl).
    rewrite Hb. rewrite (@digits2_unique _ 53 Hmz) in * by lia.
    assert (Hf2 : fexp prec emax (53 + (d - 53)) = d - 53) by (unfold fexp, emin, prec, emax; lia).
    rewrite Hf2 in *. specialize (Hl ltac:(lia)).
    destruct m3 as [|q|q]; try lia. unfold finish.
    destruct (e3 <=? _); [right; exists q, e3; repeat split; lia|left; reflexivity].
Qed.

Lemma literal_twelve : literal 120 1 = S754_finite false 6755399441055744 (-49).
Proof. vm_compute. reflexivity. Qed.

Lemma literal_eighteen : literal 180 1 = S754_finite false 5066549580791808 (-48).
Proof. vm_compute. reflexivity. Qed.

Lemma literal_one_and_half : literal 15 1 = S754_finite false 6755399441055744 (-52).
Proof. vm_compute. reflexivity. Qed.

(** Dividing a double of at least [2^9] by [12.0] gives a double of at
    least [2^5], or the infinity. *)
Lemma fdiv_twelve_big m e : 2 ^ 52 <= Zpos m < 2 ^ 53 -> -43 <= e ->
  fdiv (S754_finite false m e) (literal 120 1) = S754_infinity false \/
  exists m3 e3, fdiv (S754_finite false m e) (literal 120 1)
                = S754_finite false m3 e3 /\ -47 <= e3.
Proof.
  intros Hm He. rewrite literal_twelve. unfold fdiv, SFdiv, SFdiv_core_binary.
  rewrite (@digits2_unique (Zpos m) 53) by lia.
  change (Zdigits2 6755399441055744) with 53.
  replace (Z.min (fexp prec emax (53 + e - (53 + -49))) (e - -49)) with (e - 4)
    by (unfold fexp, emin, prec, emax; lia).
  replace (e - -49 - (e - 4)) with 53 by lia.
  destruct (Z.div_eucl (Z.shiftl (Zpos m) 53) 6755399441055744) as [q r] eqn:Hqr.
  assert (Hq : q = Z.shiftl (Zpos m) 53 / 6755399441055744)
    by (unfold Z.div; rewrite Hqr; reflexivity).
  rewrite Z.shiftl_mul_pow2 in Hq by lia.
  assert (Hq52 : 2 ^ 52 <= q).
  { rewrite Hq. apply Z.div_le_lower_bound; lia. }
  destruct q as [|pq|pq]; try lia.
  destruct (@bra_shape (xorb false false) pq (e - 4)
              (new_location 6755399441055744 r))
    as (m3 & e3 & Hb & Hm3 & He3 & Hl).
  rewrite Hb.
  pose proof (digits2_bounds pq) as [Dl Du]. simpl Zdigits2 in *.
  set (d := Zpos (digits2_pos pq)) in *.
  assert (Hd : 53 <= d).
  { destruct (Z_le_gt_dec 53 d); [assumption|].
    assert (2 ^ d <= 2 ^ 52) by (apply Z.pow_le_mono_r; lia). lia. }
  assert (Hf : Z.max (e - 4) (fexp prec emax (d + (e - 4))) = d + (e - 4) - 53)
    by (unfold fexp, emin, prec, emax; lia).
  rewrite Hf in *. specialize (Hl ltac:(lia)).
  destruct m3 as [|q3|q3]; try lia. unfold finish, xorb.
  destruct (e3 <=? _); [right; exists q3, e3; split; [reflexivity|lia]|left; reflexivity].
Qed.

Lemma all_upto_spec k P : all_upto k P = true ->
  forall n, 0 <= n < Z.of_nat k -> P n = true.
Proof.
  induction k as [|k IH]; intros H n Hn; [lia|].
  simpl in H. apply andb_true_iff in H as [H1 H2].
  destruct (Z.eq_dec n (Z.of_nat k)) as [->|Hne]; [exact H1|].
  apply IH; [exact H2|lia].
Qed.

(** From length 216 on, the quotient is at least [18.0]. *)
Lemma quotient_saturates n : 216 <= n ->
  flt (fdiv (of_int n) (literal 120 1)) (literal 180 1) = false.
Proof.
  intros Hn. destruct (Z_lt_ge_dec n 512) as [Hs|Hb].
  - assert (H : all_upto 512 (fun n => (n <? 216) ||
        negb (flt (fdiv (of_int n) (literal 120 1)) (literal 180 1))) = true)
      by (vm_compute; reflexivity).
    pose proof (@all_upto_spec _ _ H n ltac:(lia)) as Hk. cbv beta in Hk.
    apply orb_true_iff in Hk as [Hk|Hk]; [apply Z.ltb_lt in Hk; lia|].
    apply negb_true_iff in Hk. exact Hk.
  - destruct (@of_int_big n ltac:(lia)) as [E|(m & e & E & Hm & He)]; rewrite E.
    + vm_compute. reflexivity.
    + destruct (@fdiv_twelve_big m e Hm He) as [E2|(m3 & e3 & E2 & He3)]; rewrite E2.
      * vm_compute. reflexivity.
      * rewrite literal_eighteen. unfold flt, SFltb, SFcompare.
        assert (Hc : (e3 ?= -48) = Gt) by (apply Z.compare_gt_iff; lia).
        rewrite Hc. reflexivity.
Qed.

Lemma same_float_eq x y : same_float x y = true -> x = y.
Proof.
  destruct x as [| | |s m e], y as [| | |s' m' e']; simpl; try discriminate.
  intros H. apply andb_true_iff in H as [H He].
  apply andb_true_iff in H as [Hs Hm].
  apply Bool.eqb_prop in Hs. apply Pos.eqb_eq in Hm. apply Z.eqb_eq in He.
  congruence.
Qed.

Lemma duration_saturated n : 216 <= n -> duration_at n = literal 180 1.
Proof.
  intros Hn. unfold duration_at, py_min.
  rewrite (@quotient_saturates n Hn). vm_compute. reflexivity.
Qed.

Lemma duration_range n : 0 <= n ->
  fle (literal 15 1) (duration_at n) = true
  /\ fle (duration_at n) (literal 180 1) = true.
Proof.
  intros Hn. destruct (Z_lt_ge_dec n 216) as [Hs|Hb].
  - assert (H : all_upto 216 (fun n => fle (literal 15 1) (duration_at n)
        && fle (duration_at n) (literal 180 1)) = true)
      by (vm_compute; reflexivity).
    pose proof (@all_upto_spec _ _ H n ltac:(lia)) as Hk. cbv beta in Hk.
    apply andb_true_iff in Hk. exact Hk.
  - rewrite (@duration_saturated n) by lia. split; vm_compute; reflexivity.
Qed.

Lemma duration_monotone n1 n2 : 0 <= n1 <= n2 ->
  fle (duration_at n1) (duration_at n2) = true.
Proof.
  intros Hn. destruct (Z_lt_ge_dec n2 216) as [Hs|Hb].
  - assert (H : all_upto 216 (fun i => all_upto 216 (fun j =>
        if j <? i then true else fle (duration_at i) (duration_at j))) = true)
      by (vm_compute; reflexivity).
    pose proof (@all_upto_spec _ _ H n1 ltac:(lia)) as H1. cbv beta in H1.
    pose proof (@all_upto_spec _ _ H1 n2 ltac:(lia)) as H2. cbv beta in H2.
    destruct (n2 <? n1) eqn:E; [apply Z.ltb_lt in E; lia|exact H2].
  - rewrite (@duration_saturated n2 ltac:(lia)). apply duration_range. lia.
Qed.

(** The nested [max]/[min] of line 101 is the clamp of the specification. *)
Lemma duration_clamp n : 0 <= n ->
  duration_at n
  = round (clamp (fdiv (of_int n) (literal 120 1))
                 (literal 15 1) (literal 180 1)) 2.
Proof.
  intros Hn. destruct (Z_lt_ge_dec n 512) as [Hs|Hb].
  - assert (H : all_upto 512 (fun n => same_float (duration_at n)
        (round (clamp (fdiv (of_int n) (literal 120 1))
                      (literal 15 1) (literal 180 1)) 2)) = true)
      by (vm_compute; reflexivity).
    apply same_float_eq. exact (@all_upto_spec _ _ H n ltac:(lia)).
  - rewrite (@duration_saturated n) by lia. unfold clamp.
    destruct (@of_int_big n ltac:(lia)) as [E|(m & e & E & Hm & He)]; rewrite E.
    + vm_compute. reflexivity.
    + destruct (@fdiv_twelve_big m e Hm He) as [E2|(m3 & e3 & E2 & He3)]; rewrite E2.
      * vm_compute. reflexivity.
      * rewrite literal_eighteen, literal_one_and_half.
        unfold flt, fgt, SFltb, SFcompare.
        assert (Hc : (e3 ?= -52) = Gt) by (apply Z.compare_gt_iff; lia).
        assert (Hc2 : (-48 ?= e3) = Lt) by (apply Z.compare_lt_iff; lia).
        rewrite Hc, Hc2. vm_compute. reflexivity.
Qed.

(** Between the two bounds the duration is [len / 12] rounded to two
    decimals: the double nearest to the hundredths of the exact quotient. *)
Lemma duration_unclamped n : 18 <= n <= 216 ->
  duration_at n = round (fdiv (of_int n) (literal 120 1)) 2
  /\ duration_at n = of_ratio false (round_half_even (100 * n) 12) 100.
Proof.
  intros Hn.
  assert (H : all_upto 217 (fun n => (n <? 18) ||
      (same_float (duration_at n) (round (fdiv (of_int n) (literal 120 1)) 2)
       && same_float (duration_at n)
            (of_ratio false (round_half_even (100 * n) 12) 100))) = true)
    by (vm_compute; reflexivity).
  pose proof (@all_upto_spec _ _ H n ltac:(lia)) as Hk. cbv beta in Hk.
  apply orb_true_iff in Hk as [Hk|Hk]; [apply Z.ltb_lt in Hk; lia|].
  apply andb_true_iff in Hk as [H1 H2].
  split; apply same_float_eq; assumption.
Qed.

(** ** The clock *)

Lemma digits2_le q k : Zpos q < 2 ^ k -> 0 <= k -> Zpos (digits2_pos q) <= k.
Proof.
  intros H Hk. pose proof (digits2_bounds q) as [B1 B2].
  destruct (Z_le_gt_dec (Zpos (digits2_pos q)) k); [assumption|].
  assert (2 ^ k <= 2 ^ (Zpos (digits2_pos q) - 1)) by (apply Z.pow_le_mono_r; lia).
  lia.
Qed.

Lemma shl_align_fst m e ez : ez <= e ->
  Zpos (fst (shl_align m e ez)) = Zpos m * 2 ^ (e - ez).
Proof.
  intros H. unfold shl_align.
  destruct (ez - e) as [|k|k] eqn:Hk; simpl fst.
  - replace (e - ez) with 0 by lia. simpl. lia.
  - lia.
  - rewrite iter_xO_mul. replace (e - ez) with (Zpos k) by lia. reflexivity.
Qed.

(** Rounding an integer of less than [k] bits at exponent [e]. *)
Lemma binary_round_shape s p e k : Zpos p < 2 ^ k -> 0 <= k ->
  exists m3 e3, binary_round prec emax s p e = finish s m3 e3
    /\ 0 <= m3 < 2 ^ 53 /\ e3 <= Z.max e (Z.max (k + e - 53) (-1074)) + 1.
Proof.
  intros Hp Hk. unfold binary_round.
  pose proof (@digits2_le p k Hp Hk) as Hd.
  set (d := Zpos (digits2_pos p)) in *.
  set (f := fexp prec emax (d + e)).
  assert (Hf : f = Z.max (d + e - 53) (-1074)) by (unfold f, fexp, emin, prec, emax; lia).
  unfold shl_align. destruct (f - e) as [|j|j] eqn:Hj.
  - destruct (@bra_shape s p e loc_Exact) as (m3 & e3 & Hb & Hm & He & _).
    exists m3, e3. split; [exact Hb|]. split; [exact Hm|].
    simpl Zdigits2 in He. fold d in He. fold f in He. lia.
  - destruct (@bra_shape s p e loc_Exact) as (m3 & e3 & Hb & Hm & He & _).
    exists m3, e3. split; [exact Hb|]. split; [exact Hm|].
    simpl Zdigits2 in He. fold d in He. fold f in He. lia.
  - destruct (@bra_shape s (Pos.iter xO p j) f loc_Exact) as (m3 & e3 & Hb & Hm & He & _).
    exists m3, e3. split; [exact Hb|]. split; [exact Hm|].
    simpl Zdigits2 in He.
    assert (Hz : Zpos (Pos.iter xO p j) < 2 ^ (d + Zpos j)).
    { rewrite iter_xO_mul, Z.pow_add_r by lia.
      pose proof (digits2_bounds p) as [_ B]. fold d in B.
      assert (0 < 2 ^ Zpos j) by (apply Z.pow_pos_nonneg; lia). nia. }
    pose proof (@digits2_le _ _ Hz ltac:(lia)) as Hd2.
    unfold fexp, emin, prec, emax in He. lia.
Qed.

Lemma reading_small t : reading_ok t = true ->
  match t with
  | S754_zero _ => True
  | S754_finite _ m e => Zpos m < 2 ^ 53 /\ e <= 9
  | _ => False
  end.
Proof.
  destruct t as [| | |s m e]; simpl; try discriminate; [trivial|].
  intros H. apply andb_true_iff in H as [H1 H2].
  apply Z.ltb_lt in H1. apply Z.leb_le in H2. split; assumption.
Qed.

Lemma finish_small s m3 e3 : 0 <= m3 < 2 ^ 53 -> e3 <= 11 -> small (finish s m3 e3).
Proof.
  intros Hm He. destruct m3 as [|q|q]; [exact I| |lia].
  unfold finish.
  replace (e3 <=? emax - prec) with true
    by (symmetry; apply Z.leb_le; unfold emax, prec; lia).
  simpl. split; lia.
Qed.

(** The difference of two clock readings is a finite double below
    [2^64]. *)
Lemma fsub_small t1 t0 :
  reading_ok t1 = true -> reading_ok t0 = true -> small (fsub t1 t0).
Proof.
  intros H1 H0. apply reading_small in H1. apply reading_small in H0.
  destruct t1 as [s1| | |s1 m1 e1], t0 as [s0| | |s0 m0 e0];
    try contradiction; unfold fsub, SFsub.
  - destruct s1, s0; exact I.
  - simpl. lia.
  - simpl. lia.
  - destruct H1 as [Hm1 He1], H0 as [Hm0 He0].
    set (ez := Z.min e1 e0).
    pose proof (@shl_align_fst m1 e1 ez ltac:(unfold ez; lia)) as A1.
    pose proof (@shl_align_fst m0 e0 ez ltac:(unfold ez; lia)) as A0.
    set (M1 := Zpos (fst (shl_align m1 e1 ez))) in *.
    set (M0 := Zpos (fst (shl_align m0 e0 ez))) in *.
    set (g := Z.max e1 e0 - ez).
    assert (Hg : 0 <= g) by (unfold g, ez; lia).
    assert (B1 : 0 < M1 < 2 ^ (53 + g)).
    { rewrite A1. split; [apply Z.mul_pos_pos; [lia|apply Z.pow_pos_nonneg; unfold ez; lia]|].
      rewrite Z.pow_add_r by lia.
      assert (2 ^ (e1 - ez) <= 2 ^ g) by (apply Z.pow_le_mono_r; unfold g, ez; lia).
      assert (0 < 2 ^ (e1 - ez)) by (apply Z.pow_pos_nonneg; unfold ez; lia).
      nia. }
    assert (B0 : 0 < M0 < 2 ^ (53 + g)).
    { rewrite A0. split; [apply Z.mul_pos_pos; [lia|apply Z.pow_pos_nonneg; unfold ez; lia]|].
      rewrite Z.pow_add_r by lia.
      assert (2 ^ (e0 - ez) <= 2 ^ g) by (apply Z.pow_le_mono_r; unfold g, ez; lia).
      assert (0 < 2 ^ (e0 - ez)) by (apply Z.pow_pos_nonneg; unfold ez; lia).
      nia. }
    assert (P54 : 2 ^ (54 + g) = 2 * 2 ^ (53 + g)).
    { replace (54 + g) with (Z.succ (53 + g)) by lia. apply Z.pow_succ_r. lia. }
    set (D := cond_Zopp s1 M1 - cond_Zopp s0 M0).
    assert (HD : Z.abs D < 2 ^ (54 + g)).
    { unfold D, cond_Zopp. destruct s1, s0; lia. }
    unfold binary_normalize. destruct D as [|pd|pd] eqn:ED.
    + exact I.
    + destruct (@binary_round_shape false pd ez (54 + g) ltac:(lia) ltac:(lia))
        as (m3 & e3 & Hb & Hm & He).
      rewrite Hb. apply finish_small; [exact Hm|unfold g, ez in *; lia].
    + destruct (@binary_round_shape true pd ez (54 + g) ltac:(lia) ltac:(lia))
        as (m3 & e3 & Hb & Hm & He).
      rewrite Hb. apply finish_small; [exact Hm|unfold g, ez in *; lia].
Qed.

Lemma of_int_1000 : of_int 1000 = S754_finite false 8796093022208000 (-43).
Proof. vm_compute. reflexivity. Qed.

(** Line 100 never raises when the clock readings are sane. *)
Lemma elapsed_defined w : clock_ok w = true -> exists base, elapsed_ms w = Ok base.
Proof.
  unfold clock_ok, elapsed_ms. intros H. apply andb_true_iff in H as [H0 H1].
  pose proof (@fsub_small _ _ H1 H0) as Hs.
  destruct (fsub (clock w (S (ticks w))) (clock w (ticks w))) as [s| | |s m e];
    try contradiction.
  - rewrite of_int_1000. simpl. eexists; reflexivity.
  - destruct Hs as [Hm He]. rewrite of_int_1000. unfold fmul, SFmul.
    destruct (@bra_shape (xorb s false) (m * 8796093022208000) (e + -43) loc_Exact)
      as (m3 & e3 & Hb & Hm3 & He3 & _).
    rewrite Hb.
    assert (Hp : Zpos (m * 8796093022208000) < 2 ^ 106).
    { rewrite Pos2Z.inj_mul. change (2 ^ 106) with (2 ^ 53 * 2 ^ 53). nia. }
    pose proof (@digits2_le _ _ Hp ltac:(lia)) as Hd.
    simpl Zdigits2 in He3. unfold fexp, emin, prec, emax in He3.
    destruct m3 as [|q|q]; [| |lia]; unfold finish.
    + eexists; reflexivity.
    + replace (e3 <=? emax - prec) with true
        by (symmetry; apply Z.leb_le; unfold emax, prec; lia).
      simpl. eexists; reflexivity.
Qed.

End Binary64.

(* ===================================================================== *)
(** * The two paths of [generate_tts_demo] *)
(* ===================================================================== *)

Section Runs.

Lemma dumps_ok_metrics l text voice emotion speed temperature top_p :
  dumps (ok_metrics l text voice emotion speed temperature top_p) 2
  = metrics_text l text voice emotion speed temperature top_p.
Proof.
  unfold dumps, ok_metrics, metrics_text, NOTE_OK.
  generalize (round (pseudo_duration text) 2) (round speed 2)
    (round temperature 2) (round top_p 2). intros d s t p.
  cbn [encode join repeat Nat.mul Nat.add].
  abstract_literals.
  normalize_app.
  reflexivity.
Qed.

Lemma run_empty text voice emotion speed temperature top_p w :
  all_space text = true ->
  generate_tts_demo text voice emotion speed temperature top_p w
  = Ok ((RETRY_PROMPT, dumps empty_metrics 2), after_empty w).
Proof.
  intros H. unfold generate_tts_demo, bind, Time.time.
  rewrite (@strip_all_space text H). simpl truthy.
  rewrite orb_true_r. reflexivity.
Qed.

Lemma run_ok text voice emotion speed temperature top_p w base :
  all_space text = false -> elapsed_ms w = Ok base ->
  generate_tts_demo text voice emotion speed temperature top_p w
  = Ok ((_build_summary_text text voice emotion speed temperature top_p,
         dumps (ok_metrics (base + offset_of w) text voice emotion
                           speed temperature top_p) 2),
        after_ok w).
Proof.
  intros H E. unfold generate_tts_demo, bind, Time.time.
  rewrite (@truthy_visible text H), (@strip_visible text H).
  cbn [negb orb]. unfold lift, Random.randint, ret. cbn [clock ticks entropy draws].
  unfold elapsed_ms in E. rewrite E. reflexivity.
Qed.

Lemma offset_range w : 50 <= offset_of w <= 150.
Proof.
  unfold offset_of. pose proof (Z.mod_pos_bound (entropy w (draws w)) 101). lia.
Qed.

(** The fields of the metrics of a normal response. *)
Lemma ok_metrics_fields l text voice emotion speed temperature top_p :
  exists items,
    ok_metrics l text voice emotion speed temperature top_p = JDict items
    /\ keys items = [py "mode"; py "status"; py "latency_ms";
                     py "estimated_audio_duration_s"; py "voice"; py "emotion";
                     py "speed_ratio"; py "sampling"; py "note"]
    /\ get (py "status") items = Some (JStr (py "ok"))
    /\ get (py "latency_ms") items = Some (JInt l)
    /\ get (py "estimated_audio_duration_s") items
       = Some (JFloat (duration_at (len text)))
    /\ get (py "voice") items = Some (JStr voice)
    /\ get (py "emotion") items = Some (JStr emotion)
    /\ get (py "speed_ratio") items = Some (JFloat (round speed 2)).
Proof.
  unfold ok_metrics. eexists. split; [reflexivity|].
  change (duration_at (len text)) with (round (pseudo_duration text) 2).
  generalize (round (pseudo_duration text) 2) (round speed 2)
    (round temperature 2) (round top_p 2). intros d s t p.
  repeat split; vm_compute; reflexivity.
Qed.

(** Apart from [latency_ms], the metrics do not depend on the latency. *)
Lemma ok_metrics_latency_only l1 l2 text voice emotion speed temperature top_p :
  exists items1 items2,
    ok_metrics l1 text voice emotion speed temperature top_p = JDict items1
    /\ ok_metrics l2 text voice emotion speed temperature top_p = JDict items2
    /\ keys items1 = keys items2
    /\ forall key, streq (py "latency_ms") key = false ->
         get key items1 = get key items2.
Proof.
  unfold ok_metrics. do 2 eexists. split; [reflexivity|]. split; [reflexivity|].
  split; [reflexivity|]. intros key Hk.
  cbn [get]. rewrite Hk. reflexivity.
Qed.

End Runs.

(* ===================================================================== *)
(** * Numerals *)
(* ===================================================================== *)

Section Numerals.

Lemma in_join_contains sep (l : str) ls :
  In l ls -> contains (join sep ls) l = true.
Proof.
  intros H. apply in_split in H as (X & Y & ->).
  rewrite join_at. apply contains_intro.
Qed.

(** A positive double that rounds to between 0.10 and 1.50 is written with
    one or two decimal digits once rounded. *)
Lemma shortest_two_decimals m e :
  10 <= scaled m e 2 <= 150 ->
  let x := S754_finite false m e in
  round x 2 = literal (scaled m e 2) 2
  /\ (1 <= fraction_digits (floatstr (round x 2)) <= 2)%nat
  /\ (scaled m e 2 mod 10 = 0 ->
      fraction_digits (floatstr (round x 2)) = 1%nat).
Proof.
  intros Hh x.
  assert (E : round x 2 = literal (scaled m e 2) 2) by reflexivity.
  rewrite E. clear E. subst x. revert Hh.
  generalize (scaled m e 2). intros h Hh.
  assert (H : all_upto 151 (fun h => (h <? 10)
      || ((1 <=? fraction_digits (floatstr (literal h 2)))%nat
          && (fraction_digits (floatstr (literal h 2)) <=? 2)%nat
          && (negb (h mod 10 =? 0)
              || (fraction_digits (floatstr (literal h 2)) =? 1)%nat)))
      = true) by (vm_compute; reflexivity).
  pose proof (@all_upto_spec _ _ H h ltac:(lia)) as Hk. cbv beta in Hk.
  clear H.
  apply orb_true_iff in Hk as [Hk|Hk]; [apply Z.ltb_lt in Hk; lia|].
  apply andb_true_iff in Hk as [Hk H3].
  apply andb_true_iff in Hk as [H1 H2].
  split; [reflexivity|].
  split; [split; apply Nat.leb_le; assumption|].
  intros E0. apply Z.eqb_eq in E0. rewrite E0 in H3.
  apply Nat.eqb_eq. exact H3.
Qed.

End Numerals.

(* ===================================================================== *)
(** * The offset drawn by the generator *)
(* ===================================================================== *)

Section Draws.

Lemma count_upto_ext k P Q :
  (forall i, 0 <= i < Z.of_nat k -> P i = Q i) ->
  count_upto k P = count_upto k Q.
Proof.
  induction k as [|k IH]; intros H; [reflexivity|].
  cbn [count_upto]. rewrite (H (Z.of_nat k)) by lia.
  rewrite IH; [reflexivity|]. intros i Hi. apply H. lia.
Qed.

Lemma count_upto_add a b P :
  count_upto (a + b)%nat P
  = (count_upto a P + count_upto b (fun i => P (Z.of_nat a + i)%Z))%nat.
Proof.
  induction b as [|b IH].
  - rewrite Nat.add_0_r. cbn [count_upto]. lia.
  - rewrite Nat.add_succ_r. cbn [count_upto]. rewrite IH, Nat2Z.inj_add. lia.
Qed.

(** Among 101 consecutive outputs each residue modulo 101 occurs once. *)
Lemma count_period r : 0 <= r < 101 ->
  count_upto 101 (fun e => e mod 101 =? r) = 1%nat.
Proof.
  intros Hr.
  assert (H : all_upto 101 (fun r =>
      Nat.eqb (count_upto 101 (fun e => e mod 101 =? r)) 1) = true)
    by (vm_compute; reflexivity).
  pose proof (@all_upto_spec _ _ H r ltac:(lia)) as Hk. cbv beta in Hk.
  apply Nat.eqb_eq. exact Hk.
Qed.

Lemma count_residues q r : 0 <= r < 101 ->
  count_upto (101 * q)%nat (fun e => e mod 101 =? r) = q.
Proof.
  intros Hr. induction q as [|q IH].
  - rewrite Nat.mul_0_r. reflexivity.
  - replace (101 * S q)%nat with (101 * q + 101)%nat by lia.
    rewrite count_upto_add, IH.
    rewrite (@count_upto_ext 101 _ (fun e => e mod 101 =? r)).
    + rewrite (@count_period r Hr). lia.
    + intros i _. cbv beta. f_equal. rewrite Nat2Z.inj_mul.
      change (Z.of_nat 101) with 101.
      rewrite Z.add_comm, Z.mul_comm. apply Z_mod_plus_full.
Qed.

(** [random.randint(50, 150)] at line 100 returns [offset_of w]. *)
Lemma randint_offset w :
  Random.randint 50 150 (after_readings w) = Ok (offset_of w, after_ok w).
Proof. reflexivity. Qed.

(** The offset is [k] exactly when the output of the generator is
    [k - 50] modulo 101. *)
Lemma offset_residue w k :
  offset_of w = k <-> entropy w (draws w) mod 101 = k - 50.
Proof. unfold offset_of. lia. Qed.

(** Of the first [101 * q] outputs of the generator, [q] give the offset
    [k], for each [k] from 50 to 150. *)
Lemma offset_count w k q : 50 <= k <= 150 ->
  count_upto (101 * q)%nat (fun e => offset_of (with_entropy w e) =? k) = q.
Proof.
  intros Hk.
  rewrite (@count_upto_ext _ _ (fun e => e mod 101 =? k - 50)).
  - apply count_residues. lia.
  - intros i _. unfold offset_of, with_entropy. cbn [entropy draws].
    destruct (Z.eqb_spec (50 + i mod 101) k), (Z.eqb_spec (i mod 101) (k - 50));
      try reflexivity; lia.
Qed.

Lemma offset_with_entropy w k : 50 <= k <= 150 ->
  offset_of (with_entropy w (k - 50)) = k.
Proof.
  intros Hk. unfold offset_of, with_entropy. cbn [entropy draws].
  rewrite Z.mod_small; lia.
Qed.

End Draws.

(* ===================================================================== *)
(** * The claims of the specification *)
(* ===================================================================== *)

Section Claims.

Variables (voice emotion : str) (speed temperature top_p : float).

(** C1. For every text that is empty or made of whitespace only,
    [generate_tts_demo] returns the fixed retry prompt and the metrics
    [{status: "empty-input", note: <fixed>, mode: "demo"}] serialized as
    indented JSON; the mapping has these three keys only, so [latency_ms] and
    [estimated_audio_duration_s] are absent from it and from its text. *)
Theorem C1_empty_input (text : str) (w : World) :
  all_space text = true ->
  generate_tts_demo text voice emotion speed temperature top_p w
  = Ok ((RETRY_PROMPT, dumps empty_metrics 2), after_empty w)
  /\ (exists items,
        empty_metrics = JDict items
        /\ keys items = [py "status"; py "note"; py "mode"]
        /\ get (py "status") items = Some (JStr (py "empty-input"))
        /\ get (py "note") items = Some (JStr (py "请先在左侧输入待合成的文本。"))
        /\ get (py "mode") items = Some (JStr (py "demo"))
        /\ get (py "latency_ms") items = None
        /\ get (py "estimated_audio_duration_s") items = None)
  /\ dumps empty_metrics 2
     = join LF [
         [123%N];
         repeat SPACE 2 ++ quoted (py "status") ++ py ": "
           ++ quoted (py "empty-input") ++ [44%N];
         repeat SPACE 2 ++ quoted (py "note") ++ py ": "
           ++ quoted (py "请先在左侧输入待合成的文本。") ++ [44%N];
         repeat SPACE 2 ++ quoted (py "mode") ++ py ": " ++ quoted (py "demo");
         [125%N] ]
  /\ contains (dumps empty_metrics 2) (py "latency_ms") = false
  /\ contains (dumps empty_metrics 2) (py "estimated_audio_duration_s") = false.
Proof.
  intros H. split; [apply run_empty; exact H|].
  split.
  - unfold empty_metrics. eexists. split; [reflexivity|].
    repeat split; vm_compute; reflexivity.
  - repeat split; vm_compute; reflexivity.
Qed.

(** C2. For every text that is not empty after trimming, the metrics field
    [estimated_audio_duration_s] is [round(clamp(len(text) / 12.0, 1.5,
    18.0), 2)]; it lies in [[1.5, 18.0]]; a text of length 300 gives 18.0 and
    a text of length 2 gives 1.5. *)
Theorem C2_estimated_duration (text : str) (w : World) :
  all_space text = false -> clock_ok w = true ->
  exists latency_ms items d,
    generate_tts_demo text voice emotion speed temperature top_p w
    = Ok ((_build_summary_text text voice emotion speed temperature top_p,
           dumps (JDict items) 2), after_ok w)
    /\ JDict items
       = ok_metrics latency_ms text voice emotion speed temperature top_p
    /\ get (py "estimated_audio_duration_s") items = Some (JFloat d)
    /\ d = round (clamp (fdiv (of_int (len text)) (literal 120 1))
                        (literal 15 1) (literal 180 1)) 2
    /\ fle (literal 15 1) d = true /\ fle d (literal 180 1) = true
    /\ (len text = 300 -> d = literal 180 1)
    /\ (len text = 2 -> d = literal 15 1).
Proof.
  intros Ht Hc. destruct (@elapsed_defined w Hc) as [base Hb].
  destruct (ok_metrics_fields (base + offset_of w) text voice emotion
              speed temperature top_p)
    as (items & Hi & _ & _ & _ & Hd & _).
  assert (Hlen : 0 <= len text) by (unfold len; lia).
  exists (base + offset_of w), items, (duration_at (len text)).
  rewrite <- Hi. split; [apply run_ok; assumption|].
  split; [reflexivity|]. split; [exact Hd|].
  split; [apply duration_clamp; exact Hlen|].
  split; [apply duration_range; exact Hlen|].
  split; [apply duration_range; exact Hlen|].
  split; intros E; rewrite E; vm_compute; reflexivity.
Qed.

(** C3. In the description of a non-empty input the preview stands between
    the label and the closing quote; when the trimmed text with its newlines
    replaced is longer than 80 characters the preview is its first 80
    characters and one ellipsis character, otherwise it is that text in
    full, each newline of the trimmed text replaced by one space. *)
Theorem C3_preview (text : str) (w : World) :
  all_space text = false -> clock_ok w = true ->
  let trimmed := replace LF SPACE (strip text) in
  exists description metrics preview,
    generate_tts_demo text voice emotion speed temperature top_p w
    = Ok ((description, metrics), after_ok w)
    /\ contains description
         (PREVIEW_LABEL ++ QUOTE :: SPACE :: preview ++ [SPACE; QUOTE]) = true
    /\ (80 < len trimmed ->
        preview = take 80 trimmed ++ [ELLIPSIS] /\ len preview = 81)
    /\ (len trimmed <= 80 -> preview = trimmed)
    /\ Forall2 (fun c c' => c' = if (c =? LF)%N then SPACE else c)
               (strip text) trimmed.
Proof.
  intros Ht Hc trimmed. destruct (@elapsed_defined w Hc) as [base Hb].
  eexists _, _, (preview_of text).
  split; [apply run_ok; eassumption|].
  split; [apply description_has_preview|].
  unfold preview_of. fold trimmed. split; [|split].
  - intros H. apply Z.ltb_lt in H as H'. rewrite H'. split; [reflexivity|].
    unfold len, take in *. rewrite length_app, firstn_length_le by lia.
    simpl. lia.
  - intros H. destruct (80 <? len trimmed) eqn:E; [|reflexivity].
    apply Z.ltb_lt in E. lia.
  - unfold trimmed, replace. induction (strip text) as [|c l IH]; simpl;
      constructor; [reflexivity|exact IH].
Qed.

(** C4, as amended. The metrics carry [round(speed, 2)],
    [round(temperature, 2)] and [round(top_p, 2)] written in the shortest
    form of [repr]: the value is rounded to two decimals and trailing zeros
    are dropped. For every positive value that rounds to between 0.10 and
    1.50, the range of the three sliders, the numeral has one or two decimal
    digits, and one only when the second would be zero (1.0 appears as
    [1.0]). *)
Theorem C4_rounded_shortest (text : str) (w : World) :
  all_space text = false -> clock_ok w = true ->
  exists latency_ms description metrics,
    generate_tts_demo text voice emotion speed temperature top_p w
    = Ok ((description, metrics), after_ok w)
    /\ metrics
       = metrics_text latency_ms text voice emotion speed temperature top_p
    /\ contains metrics
         (repeat SPACE 2 ++ encode_str (py "speed_ratio") ++ py ": "
            ++ floatstr (round speed 2) ++ [44%N]) = true
    /\ contains metrics
         (repeat SPACE 4 ++ encode_str (py "temperature") ++ py ": "
            ++ floatstr (round temperature 2) ++ [44%N]) = true
    /\ contains metrics
         (repeat SPACE 4 ++ encode_str (py "top_p") ++ py ": "
            ++ floatstr (round top_p 2)) = true
    /\ (forall m e,
          10 <= scaled m e 2 <= 150 ->
          let x := S754_finite false m e in
          round x 2 = literal (scaled m e 2) 2
          /\ (1 <= fraction_digits (floatstr (round x 2)) <= 2)%nat
          /\ (scaled m e 2 mod 10 = 0 ->
              fraction_digits (floatstr (round x 2)) = 1%nat)).
Proof.
  intros Ht Hc. destruct (@elapsed_defined w Hc) as [base Hb].
  exists (base + offset_of w),
    (_build_summary_text text voice emotion speed temperature top_p),
    (metrics_text (base + offset_of w) text voice emotion
       speed temperature top_p).
  split; [rewrite <- dumps_ok_metrics; apply run_ok; assumption|].
  split; [reflexivity|].
  split; [apply in_join_contains; do 7 right; left; reflexivity|].
  split; [apply in_join_contains; do 9 right; left; reflexivity|].
  split; [apply in_join_contains; do 10 right; left; reflexivity|].
  intros m e Hh. apply shortest_two_decimals. exact Hh.
Qed.

(** C5, as amended. For every non-empty text [latency_ms] is the elapsed
    milliseconds [int((now - start) * 1000)] plus a uniformly-random integer
    offset of [[50, 150]], the value that [random.randint(50, 150)] returns
    to line 100: 50 plus the output of the generator modulo 101. So it is at
    least the base elapsed time plus 50 and at most the base plus 150, and
    it is at least 50 whenever the base elapsed time is not negative. The
    offset is uniform over the 101 values in so far as the generator is:
    it is [k] exactly when the output of the generator is [k - 50] modulo
    101, each [k] is given by [q] of the first [101 * q] outputs, and every
    [k] of the range is the offset of a run that differs in the generator
    only. *)
Theorem C5_latency (text : str) (w : World) :
  all_space text = false -> clock_ok w = true ->
  exists base items,
    elapsed_ms w = Ok base
    /\ Random.randint 50 150 (after_readings w) = Ok (offset_of w, after_ok w)
    /\ 50 <= offset_of w <= 150
    /\ generate_tts_demo text voice emotion speed temperature top_p w
       = Ok ((_build_summary_text text voice emotion speed temperature top_p,
              dumps (JDict items) 2), after_ok w)
    /\ JDict items
       = ok_metrics (base + offset_of w) text voice emotion
           speed temperature top_p
    /\ get (py "latency_ms") items = Some (JInt (base + offset_of w))
    /\ base + 50 <= base + offset_of w <= base + 150
    /\ base <= base + offset_of w
    /\ (0 <= base -> 50 <= base + offset_of w)
    /\ (forall k, 50 <= k <= 150 ->
          (offset_of w = k <-> entropy w (draws w) mod 101 = k - 50)
          /\ (forall q : nat,
                count_upto (101 * q)%nat
                  (fun e => offset_of (with_entropy w e) =? k) = q)
          /\ generate_tts_demo text voice emotion speed temperature top_p
               (with_entropy w (k - 50))
             = Ok ((_build_summary_text text voice emotion
                      speed temperature top_p,
                    dumps (ok_metrics (base + k) text voice emotion
                             speed temperature top_p) 2),
                   after_ok (with_entropy w (k - 50)))).
Proof.
  intros Ht Hc. destruct (@elapsed_defined w Hc) as [base Hb].
  pose proof (offset_range w) as Ho.
  destruct (ok_metrics_fields (base + offset_of w) text voice emotion
              speed temperature top_p)
    as (items & Hi & _ & _ & Hl & _).
  exists base, items. rewrite <- Hi.
  split; [exact Hb|]. split; [apply randint_offset|]. split; [exact Ho|].
  split; [apply run_ok; assumption|].
  split; [reflexivity|]. split; [exact Hl|].
  split; [lia|]. split; [lia|]. split; [lia|].
  intros k Hk. split; [apply offset_residue|].
  split; [intros q; apply offset_count; exact Hk|].
  assert (Hb' : elapsed_ms (with_entropy w (k - 50)) = Ok base) by exact Hb.
  pose proof (@run_ok text voice emotion speed temperature top_p
                (with_entropy w (k - 50)) base Ht Hb') as R.
  rewrite (@offset_with_entropy w k Hk) in R. exact R.
Qed.

(** C6. The estimated duration does not decrease with the length of the
    text: of two non-empty texts, the other parameters being the same, the
    shorter one gets the smaller or equal [estimated_audio_duration_s];
    between the two bounds (lengths 18 to 216) the value is [len / 12]
    rounded to two decimals. *)
Theorem C6_duration_monotone (text1 text2 : str) (w1 w2 : World) :
  all_space text1 = false -> all_space text2 = false ->
  clock_ok w1 = true -> clock_ok w2 = true ->
  len text1 <= len text2 ->
  exists l1 l2 items1 items2 d1 d2,
    generate_tts_demo text1 voice emotion speed temperature top_p w1
    = Ok ((_build_summary_text text1 voice emotion speed temperature top_p,
           dumps (JDict items1) 2), after_ok w1)
    /\ generate_tts_demo text2 voice emotion speed temperature top_p w2
       = Ok ((_build_summary_text text2 voice emotion speed temperature top_p,
              dumps (JDict items2) 2), after_ok w2)
    /\ JDict items1 = ok_metrics l1 text1 voice emotion speed temperature top_p
    /\ JDict items2 = ok_metrics l2 text2 voice emotion speed temperature top_p
    /\ get (py "estimated_audio_duration_s") items1 = Some (JFloat d1)
    /\ get (py "estimated_audio_duration_s") items2 = Some (JFloat d2)
    /\ fle d1 d2 = true
    /\ (18 <= len text1 <= 216 ->
        d1 = round (fdiv (of_int (len text1)) (literal 120 1)) 2
        /\ d1 = of_ratio false (round_half_even (100 * len text1) 12) 100).
Proof.
  intros Ht1 Ht2 Hc1 Hc2 Hlen.
  destruct (@elapsed_defined w1 Hc1) as [b1 Hb1].
  destruct (@elapsed_defined w2 Hc2) as [b2 Hb2].
  destruct (ok_metrics_fields (b1 + offset_of w1) text1 voice emotion
              speed temperature top_p)
    as (items1 & Hi1 & _ & _ & _ & Hd1 & _).
  destruct (ok_metrics_fields (b2 + offset_of w2) text2 voice emotion
              speed temperature top_p)
    as (items2 & Hi2 & _ & _ & _ & Hd2 & _).
  exists (b1 + offset_of w1), (b2 + offset_of w2), items1, items2,
    (duration_at (len text1)), (duration_at (len text2)).
  rewrite <- Hi1, <- Hi2.
  split; [apply run_ok; assumption|]. split; [apply run_ok; assumption|].
  split; [reflexivity|]. split; [reflexivity|].
  split; [exact Hd1|]. split; [exact Hd2|].
  split; [apply duration_monotone; unfold len in *; lia|].
  apply duration_unclamped.
Qed.

(** C7. [generate_tts_demo] never fails: for any text, any voice and emotion
    strings and any three floats it returns a pair of a description and a
    metrics text, and when the text is not empty after trimming the status
    of the metrics is ["ok"]. The clock is assumed to deliver finite
    readings below [2^62] seconds. *)
Theorem C7_never_fails (text : str) (w : World) :
  clock_ok w = true ->
  exists description metrics w',
    generate_tts_demo text voice emotion speed temperature top_p w
    = Ok ((description, metrics), w')
    /\ (all_space text = false ->
        exists latency_ms items,
          metrics = dumps (JDict items) 2
          /\ JDict items
             = ok_metrics latency_ms text voice emotion speed temperature top_p
          /\ get (py "status") items = Some (JStr (py "ok"))).
Proof.
  intros Hc. destruct (all_space text) eqn:Ht.
  - do 3 eexists. split; [apply run_empty; exact Ht|]. discriminate.
  - destruct (@elapsed_defined w Hc) as [base Hb].
    destruct (ok_metrics_fields (base + offset_of w) text voice emotion
                speed temperature top_p)
      as (items & Hi & _ & Hs & _).
    do 3 eexists. split; [apply run_ok; eassumption|].
    intros _. exists (base + offset_of w), items. rewrite <- Hi.
    split; [reflexivity|]. split; [reflexivity|exact Hs].
Qed.

(** C8. Two invocations with the same six inputs give the same description
    and metrics that agree in every field but [latency_ms]: the two metrics
    texts are the same lines around the latency, the two mappings have the
    same keys and the same value under every key other than [latency_ms];
    on the empty-input path the two results are equal. *)
Theorem C8_determinism (text : str) (w1 w2 : World) :
  clock_ok w1 = true -> clock_ok w2 = true ->
  exists description metrics1 metrics2 w1' w2',
    generate_tts_demo text voice emotion speed temperature top_p w1
    = Ok ((description, metrics1), w1')
    /\ generate_tts_demo text voice emotion speed temperature top_p w2
       = Ok ((description, metrics2), w2')
    /\ (all_space text = true -> metrics1 = metrics2)
    /\ (all_space text = false ->
        exists l1 l2 items1 items2,
          metrics1 = dumps (JDict items1) 2
          /\ metrics2 = dumps (JDict items2) 2
          /\ metrics1
             = metrics_text l1 text voice emotion speed temperature top_p
          /\ metrics2
             = metrics_text l2 text voice emotion speed temperature top_p
          /\ keys items1 = keys items2
          /\ (forall key, streq (py "latency_ms") key = false ->
                get key items1 = get key items2)
          /\ get (py "latency_ms") items1 = Some (JInt l1)
          /\ get (py "latency_ms") items2 = Some (JInt l2)).
Proof.
  intros Hc1 Hc2. destruct (all_space text) eqn:Ht.
  - do 5 eexists. split; [apply run_empty; exact Ht|].
    split; [apply run_empty; exact Ht|].
    split; [reflexivity|discriminate].
  - destruct (@elapsed_defined w1 Hc1) as [b1 Hb1].
    destruct (@elapsed_defined w2 Hc2) as [b2 Hb2].
    do 5 eexists. split; [apply run_ok; eassumption|].
    split; [apply run_ok; eassumption|].
    split; [discriminate|]. intros _.
    destruct (ok_metrics_latency_only (b1 + offset_of w1) (b2 + offset_of w2)
                text voice emotion speed temperature top_p)
      as (items1 & items2 & Hi1 & Hi2 & Hk & Hg).
    exists (b1 + offset_of w1), (b2 + offset_of w2), items1, items2.
    rewrite <- Hi1, <- Hi2.
    split; [reflexivity|]. split; [reflexivity|].
    split; [apply dumps_ok_metrics|]. split; [apply dumps_ok_metrics|].
    split; [exact Hk|]. split; [exact Hg|].
    unfold ok_metrics in Hi1, Hi2. inversion Hi1; inversion Hi2.
    split; vm_compute; reflexivity.
Qed.

(** C9, as amended. The generator does not validate voice and emotion: for
    any two strings, in or out of the lists of the interface, and a
    non-empty text, the metrics fields [voice] and [emotion] are the input
    strings, and the description shows each of them after its label as it
    is, provided it contains no newline. *)
Theorem C9_voice_emotion_verbatim (text : str) (w : World) :
  all_space text = false -> clock_ok w = true ->
  exists latency_ms items description,
    generate_tts_demo text voice emotion speed temperature top_p w
    = Ok ((description, dumps (JDict items) 2), after_ok w)
    /\ JDict items
       = ok_metrics latency_ms text voice emotion speed temperature top_p
    /\ get (py "voice") items = Some (JStr voice)
    /\ get (py "emotion") items = Some (JStr emotion)
    /\ (~ In LF voice -> contains description (VOICE_LABEL ++ voice) = true)
    /\ (~ In LF emotion ->
        contains description (EMOTION_LABEL ++ emotion) = true).
Proof.
  intros Ht Hc. destruct (@elapsed_defined w Hc) as [base Hb].
  destruct (ok_metrics_fields (base + offset_of w) text voice emotion
              speed temperature top_p)
    as (items & Hi & _ & _ & _ & _ & Hv & He & _).
  exists (base + offset_of w), items,
    (_build_summary_text text voice emotion speed temperature top_p).
  rewrite <- Hi. split; [apply run_ok; assumption|].
  split; [reflexivity|]. split; [exact Hv|]. split; [exact He|].
  split; intros Hn; [apply description_has_voice|apply description_has_emotion];
    exact Hn.
Qed.

(** C10. The cut at 80 characters is decided on the trimmed text: a
    non-empty input of more than 80 characters whose trimmed text has at
    most 80 appears in the preview in full, newlines replaced, and nothing
    is appended to it. *)
Theorem C10_cut_after_trim (text : str) (w : World) :
  all_space text = false -> clock_ok w = true ->
  80 < len text -> len (strip text) <= 80 ->
  exists description metrics,
    generate_tts_demo text voice emotion speed temperature top_p w
    = Ok ((description, metrics), after_ok w)
    /\ preview_of text = replace LF SPACE (strip text)
    /\ len (preview_of text) = len (strip text)
    /\ contains description
         (PREVIEW_LABEL ++ QUOTE :: SPACE :: replace LF SPACE (strip text)
            ++ [SPACE; QUOTE]) = true.
Proof.
  intros Ht Hc Hraw Hs. destruct (@elapsed_defined w Hc) as [base Hb].
  assert (Hp : preview_of text = replace LF SPACE (strip text)).
  { unfold preview_of.
    destruct (80 <? len (replace LF SPACE (strip text))) eqn:E; [|reflexivity].
    apply Z.ltb_lt in E. unfold len in *. rewrite replace_length in E. lia. }
  do 2 eexists. split; [apply run_ok; eassumption|].
  split; [exact Hp|].
  split; [rewrite Hp; unfold len; rewrite replace_length; reflexivity|].
  rewrite <- Hp. apply description_has_preview.
Qed.

End Claims.

(* ===================================================================== *)
(** * Instances and counterexamples *)
(* ===================================================================== *)

Lemma elapsed_steady : elapsed_ms steady_world = Ok 1000.
Proof. vm_compute. reflexivity. Qed.

Lemma elapsed_set_back : elapsed_ms set_back_world = Ok (-1000).
Proof. vm_compute. reflexivity. Qed.

Lemma C1_empty_input_witness :
  all_space [SPACE; LF; 12288%N] = true
  /\ generate_tts_demo [SPACE; LF; 12288%N] TARA NEUTRAL
       (literal 10 1) (literal 6 1) (literal 9 1) steady_world
     = Ok ((RETRY_PROMPT, dumps empty_metrics 2), after_empty steady_world).
Proof.
  split; [reflexivity|].
  apply (C1_empty_input TARA NEUTRAL (literal 10 1) (literal 6 1) (literal 9 1)
           [SPACE; LF; 12288%N] steady_world).
  reflexivity.
Defined.

Lemma C2_estimated_duration_witness :
  all_space HELLO = false /\ clock_ok steady_world = true
  /\ exists latency_ms items d,
       generate_tts_demo HELLO TARA NEUTRAL
         (literal 10 1) (literal 6 1) (literal 9 1) steady_world
       = Ok ((_build_summary_text HELLO TARA NEUTRAL
                (literal 10 1) (literal 6 1) (literal 9 1),
              dumps (JDict items) 2), after_ok steady_world)
       /\ JDict items
          = ok_metrics latency_ms HELLO TARA NEUTRAL
              (literal 10 1) (literal 6 1) (literal 9 1)
       /\ get (py "estimated_audio_duration_s") items = Some (JFloat d)
       /\ d = literal 15 1.
Proof.
  split; [reflexivity|]. split; [reflexivity|].
  destruct (C2_estimated_duration TARA NEUTRAL (literal 10 1) (literal 6 1)
              (literal 9 1) HELLO steady_world eq_refl eq_refl)
    as (l & items & d & H1 & H2 & H3 & _ & _ & _ & _ & H8).
  exists l, items, d. split; [exact H1|]. split; [exact H2|].
  split; [exact H3|]. apply H8. reflexivity.
Defined.

Lemma C3_preview_witness :
  all_space PADDED = false /\ clock_ok steady_world = true
  /\ exists description metrics,
       generate_tts_demo PADDED TARA NEUTRAL
         (literal 10 1) (literal 6 1) (literal 9 1) steady_world
       = Ok ((description, metrics), after_ok steady_world)
       /\ contains description
            (PREVIEW_LABEL ++ QUOTE :: SPACE :: py "hello world"
               ++ [SPACE; QUOTE]) = true.
Proof.
  split; [reflexivity|]. split; [reflexivity|].
  destruct (C3_preview TARA NEUTRAL (literal 10 1) (literal 6 1) (literal 9 1)
              PADDED steady_world eq_refl eq_refl)
    as (description & metrics & preview & H1 & H2 & _ & H4 & _).
  exists description, metrics. split; [exact H1|].
  rewrite (H4 ltac:(vm_compute; discriminate)) in H2. exact H2.
Defined.

(** Against C4 as stated: with the default settings of the interface the
    metrics show [1.0], [0.6] and [0.9], one decimal digit each. *)
Lemma C4_counterexample :
  generate_tts_demo HELLO TARA NEUTRAL
    (literal 10 1) (literal 6 1) (literal 9 1) steady_world
  = Ok ((_build_summary_text HELLO TARA NEUTRAL
           (literal 10 1) (literal 6 1) (literal 9 1),
         metrics_text 1057 HELLO TARA NEUTRAL
           (literal 10 1) (literal 6 1) (literal 9 1)),
        after_ok steady_world)
  /\ floatstr (round (literal 10 1) 2) = py "1.0"
  /\ floatstr (round (literal 6 1) 2) = py "0.6"
  /\ floatstr (round (literal 9 1) 2) = py "0.9"
  /\ fraction_digits (floatstr (round (literal 10 1) 2)) = 1%nat
  /\ contains (metrics_text 1057 HELLO TARA NEUTRAL
                 (literal 10 1) (literal 6 1) (literal 9 1))
       (quoted (py "speed_ratio") ++ py ": 1.0,") = true
  /\ contains (metrics_text 1057 HELLO TARA NEUTRAL
                 (literal 10 1) (literal 6 1) (literal 9 1))
       (py "1.00") = false.
Proof.
  split.
  - rewrite <- dumps_ok_metrics.
    apply (@run_ok HELLO TARA NEUTRAL (literal 10 1) (literal 6 1) (literal 9 1)
             steady_world 1000 eq_refl elapsed_steady).
  - repeat split; vm_compute; reflexivity.
Qed.

Lemma C4_rounded_shortest_witness :
  all_space HELLO = false /\ clock_ok steady_world = true
  /\ exists latency_ms description,
       generate_tts_demo HELLO TARA NEUTRAL
         (literal 75 2) (literal 6 1) (literal 9 1) steady_world
       = Ok ((description,
              metrics_text latency_ms HELLO TARA NEUTRAL
                (literal 75 2) (literal 6 1) (literal 9 1)),
             after_ok steady_world).
Proof.
  split; [reflexivity|]. split; [reflexivity|].
  destruct (C4_rounded_shortest TARA NEUTRAL (literal 75 2) (literal 6 1)
              (literal 9 1) HELLO steady_world eq_refl eq_refl)
    as (l & description & metrics & H1 & H2 & _).
  exists l, description. rewrite <- H2. exact H1.
Defined.

(** Against C5 as stated: when the wall clock is set back by one second
    between the two readings, the latency is negative. *)
Lemma C5_counterexample :
  all_space HELLO = false /\ clock_ok set_back_world = true
  /\ generate_tts_demo HELLO TARA NEUTRAL
       (literal 10 1) (literal 6 1) (literal 9 1) set_back_world
     = Ok ((_build_summary_text HELLO TARA NEUTRAL
              (literal 10 1) (literal 6 1) (literal 9 1),
            dumps (ok_metrics (-943) HELLO TARA NEUTRAL
                     (literal 10 1) (literal 6 1) (literal 9 1)) 2),
           after_ok set_back_world)
  /\ (exists items,
        ok_metrics (-943) HELLO TARA NEUTRAL
          (literal 10 1) (literal 6 1) (literal 9 1) = JDict items
        /\ get (py "latency_ms") items = Some (JInt (-943)))
  /\ ~ 50 <= -943.
Proof.
  split; [reflexivity|]. split; [reflexivity|]. split.
  - apply (@run_ok HELLO TARA NEUTRAL (literal 10 1) (literal 6 1) (literal 9 1)
             set_back_world (-1000) eq_refl elapsed_set_back).
  - split; [|lia].
    destruct (ok_metrics_fields (-943) HELLO TARA NEUTRAL
                (literal 10 1) (literal 6 1) (literal 9 1))
      as (items & Hi & _ & _ & Hl & _).
    exists items. split; [exact Hi|exact Hl].
Qed.

Lemma C5_latency_witness :
  all_space HELLO = false /\ clock_ok steady_world = true
  /\ exists base items,
       elapsed_ms steady_world = Ok base
       /\ 50 <= offset_of steady_world <= 150
       /\ get (py "latency_ms") items
          = Some (JInt (base + offset_of steady_world))
       /\ 50 <= base + offset_of steady_world.
Proof.
  split; [reflexivity|]. split; [reflexivity|].
  destruct (C5_latency TARA NEUTRAL (literal 10 1) (literal 6 1) (literal 9 1)
              HELLO steady_world eq_refl eq_refl)
    as (base & items & H1 & _ & H3 & _ & _ & H6 & _ & _ & H9 & _).
  exists base, items. split; [exact H1|]. split; [exact H3|].
  split; [exact H6|]. apply H9.
  rewrite elapsed_steady in H1. injection H1 as <-. lia.
Defined.

Lemma C6_duration_monotone_witness :
  all_space HELLO = false /\ all_space PADDED = false
  /\ clock_ok steady_world = true /\ clock_ok set_back_world = true
  /\ len HELLO <= len PADDED
  /\ exists items1 items2 d1 d2,
       get (py "estimated_audio_duration_s") items1 = Some (JFloat d1)
       /\ get (py "estimated_audio_duration_s") items2 = Some (JFloat d2)
       /\ fle d1 d2 = true.
Proof.
  split; [reflexivity|]. split; [reflexivity|]. split; [reflexivity|].
  split; [reflexivity|]. split; [vm_compute; discriminate|].
  destruct (C6_duration_monotone TARA NEUTRAL (literal 10 1) (literal 6 1)
              (literal 9 1) HELLO PADDED steady_world set_back_world
              eq_refl eq_refl eq_refl eq_refl ltac:(vm_compute; discriminate))
    as (l1 & l2 & items1 & items2 & d1 & d2 & _ & _ & _ & _ & H5 & H6 & H7 & _).
  exists items1, items2, d1, d2. split; [exact H5|]. split; [exact H6|exact H7].
Defined.

Lemma C7_never_fails_witness :
  clock_ok steady_world = true
  /\ exists description metrics w',
       generate_tts_demo HELLO TWO_PARAGRAPHS [] S754_nan
         (S754_infinity true) (S754_zero true) steady_world
       = Ok ((description, metrics), w').
Proof.
  split; [reflexivity|].
  destruct (C7_never_fails TWO_PARAGRAPHS [] S754_nan (S754_infinity true)
              (S754_zero true) HELLO steady_world eq_refl)
    as (description & metrics & w' & H & _).
  exists description, metrics, w'. exact H.
Defined.

Lemma C8_determinism_witness :
  clock_ok steady_world = true /\ clock_ok set_back_world = true
  /\ exists description metrics1 metrics2 w1' w2',
       generate_tts_demo HELLO TARA NEUTRAL
         (literal 10 1) (literal 6 1) (literal 9 1) steady_world
       = Ok ((description, metrics1), w1')
       /\ generate_tts_demo HELLO TARA NEUTRAL
            (literal 10 1) (literal 6 1) (literal 9 1) set_back_world
          = Ok ((description, metrics2), w2').
Proof.
  split; [reflexivity|]. split; [reflexivity|].
  destruct (C8_determinism TARA NEUTRAL (literal 10 1) (literal 6 1)
              (literal 9 1) HELLO steady_world set_back_world eq_refl eq_refl)
    as (description & m1 & m2 & w1' & w2' & H1 & H2 & _).
  exists description, m1, m2, w1', w2'. split; [exact H1|exact H2].
Defined.

(** Against C9 as stated: a voice with a blank line inside does not appear
    in the description as it is, [dedent] empties the blank line. *)
Lemma C9_counterexample :
  all_space HELLO = false /\ clock_ok steady_world = true
  /\ generate_tts_demo HELLO TWO_PARAGRAPHS NEUTRAL
       (literal 10 1) (literal 6 1) (literal 9 1) steady_world
     = Ok ((_build_summary_text HELLO TWO_PARAGRAPHS NEUTRAL
              (literal 10 1) (literal 6 1) (literal 9 1),
            dumps (ok_metrics 1057 HELLO TWO_PARAGRAPHS NEUTRAL
                     (literal 10 1) (literal 6 1) (literal 9 1)) 2),
           after_ok steady_world)
  /\ contains (_build_summary_text HELLO TWO_PARAGRAPHS NEUTRAL
                 (literal 10 1) (literal 6 1) (literal 9 1))
       TWO_PARAGRAPHS = false
  /\ contains (_build_summary_text HELLO TWO_PARAGRAPHS NEUTRAL
                 (literal 10 1) (literal 6 1) (literal 9 1))
       (VOICE_LABEL ++ [97%N; LF; LF; 98%N]) = true.
Proof.
  split; [reflexivity|]. split; [reflexivity|]. split.
  - apply (@run_ok HELLO TWO_PARAGRAPHS NEUTRAL (literal 10 1) (literal 6 1)
             (literal 9 1) steady_world 1000 eq_refl elapsed_steady).
  - split; vm_compute; reflexivity.
Qed.

Lemma C9_voice_emotion_verbatim_witness :
  all_space HELLO = false /\ clock_ok steady_world = true
  /\ exists description items,
       get (py "voice") items = Some (JStr (py "robot"))
       /\ get (py "emotion") items = Some (JStr (py "angry <grr>"))
       /\ contains description (VOICE_LABEL ++ py "robot") = true
       /\ contains description (EMOTION_LABEL ++ py "angry <grr>") = true.
Proof.
  split; [reflexivity|]. split; [reflexivity|].
  destruct (C9_voice_emotion_verbatim (py "robot") (py "angry <grr>")
              (literal 10 1) (literal 6 1) (literal 9 1) HELLO steady_world
              eq_refl eq_refl)
    as (l & items & description & _ & _ & H3 & H4 & H5 & H6).
  exists description, items. split; [exact H3|]. split; [exact H4|].
  split; [apply H5|apply H6]; apply no_lf_check; reflexivity.
Defined.

Lemma C10_cut_after_trim_witness :
  all_space PADDED = false /\ clock_ok steady_world = true
  /\ 80 < len PADDED /\ len (strip PADDED) <= 80
  /\ preview_of PADDED = py "hello world".
Proof.
  split; [reflexivity|]. split; [reflexivity|].
  split; [reflexivity|]. split; [vm_compute; discriminate|].
  destruct (C10_cut_after_trim TARA NEUTRAL (literal 10 1) (literal 6 1)
              (literal 9 1) PADDED steady_world eq_refl eq_refl eq_refl
              ltac:(vm_compute; discriminate))
    as (description & metrics & _ & H2 & _).
  rewrite H2. reflexivity.
Defined.

(* ===================================================================== *)
(** * The layout of the description *)
(* ===================================================================== *)

Ltac no_lf_tac :=
  match goal with
  | |- ~ In LF (_ ++ _) => apply no_lf_app; no_lf_tac
  | |- ~ In LF (_ :: _) => apply no_lf_cons; [discriminate|no_lf_tac]
  | |- ~ In LF (preview_of _) => apply preview_no_lf
  | |- ~ In LF [] => simpl; tauto
  | |- _ => assumption
  | |- _ => apply no_lf_check; vm_compute; reflexivity
  end.

Section Layout.

Import Textwrap.

Lemma split_join sep l ls :
  Forall (fun l => ~ In sep l) (l :: ls) -> split sep (join sep (l :: ls)) = l :: ls.
Proof.
  revert l. induction ls as [|l' ls IH]; intros l H.
  - simpl. apply split_line. inversion H; assumption.
  - inversion H as [|? ? Hl Hr]; subst.
    change (join sep (l :: l' :: ls)) with (l ++ sep :: join sep (l' :: ls)).
    rewrite split_app, (@split_line sep l Hl), (IH l' Hr). reflexivity.
Qed.

Lemma indent_of_app mg out :
  forallb isblank mg = true -> starts_visible out = true ->
  indent_of (mg ++ out) = Some mg.
Proof.
  intros Hm Ho. induction mg as [|a mg IH].
  - destruct out as [|c out]; [discriminate|].
    cbn [starts_visible] in Ho. apply negb_true_iff in Ho.
    cbn [app indent_of]. rewrite Ho. reflexivity.
  - cbn [forallb] in Hm. apply andb_true_iff in Hm as [Ha Hm].
    cbn [app indent_of]. rewrite Ha, (IH Hm). reflexivity.
Qed.

Lemma indent_of_blank_line l :
  forallb isblank l = true -> indent_of (blank_line l) = None.
Proof. intros H. unfold blank_line. rewrite H. reflexivity. Qed.

Lemma visible_not_blank mg out :
  starts_visible out = true -> forallb isblank (mg ++ out) = false.
Proof.
  intros Ho. rewrite forallb_app. destruct out as [|c out]; [discriminate|].
  cbn [starts_visible] in Ho. apply negb_true_iff in Ho.
  cbn [forallb]. rewrite Ho. apply andb_false_r.
Qed.

Lemma indents_cons l lines :
  indents (l :: lines)
  = match indent_of l with Some i => [i] | None => [] end ++ indents lines.
Proof. reflexivity. Qed.

(** The margin of lines that are all blank or indented by [mg]. *)
Lemma margin_uniform mg lines outs :
  forallb isblank mg = true -> Forall2 (dedented mg) lines outs ->
  forall acc, acc = None \/ acc = Some mg ->
  (fold_left update_margin (indents (map blank_line lines)) acc = acc
   \/ fold_left update_margin (indents (map blank_line lines)) acc = Some mg)
  /\ (Exists (fun o => starts_visible o = true) outs ->
      fold_left update_margin (indents (map blank_line lines)) acc = Some mg).
Proof.
  intros Hm H. induction H as [|l o lines outs Hd H IH]; intros acc Ha.
  - simpl. split; [left; reflexivity|]. intros E. inversion E.
  - cbn [map]. rewrite indents_cons.
    destruct Hd as [[Hb ->]|[-> Hv]].
    + rewrite (@indent_of_blank_line _ Hb). cbn [app].
      destruct (IH acc Ha) as [I1 I2]. split; [exact I1|].
      intros E. inversion E as [? ? Hx|? ? Hx]; subst; [discriminate|].
      apply I2. exact Hx.
    + unfold blank_line at 1 3 5. rewrite (@visible_not_blank mg _ Hv).
      rewrite (@indent_of_app _ _ Hm Hv). cbn [app fold_left].
      assert (Hu : update_margin acc mg = Some mg).
      { destruct Ha as [->| ->]; simpl; [reflexivity|].
        assert (E : startswith mg mg = true)
          by (rewrite <- (app_nil_r mg) at 1; apply startswith_app).
        rewrite E. reflexivity. }
      rewrite Hu. destruct (IH (Some mg) (or_intror eq_refl)) as [I1 _].
      assert (R : fold_left update_margin (indents (map blank_line lines))
                    (Some mg) = Some mg)
        by (destruct I1; assumption).
      rewrite R. split; [right; reflexivity|reflexivity].
Qed.

Lemma remove_margin_dedented a mg l o :
  dedented (a :: mg) l o -> remove_margin (a :: mg) (blank_line l) = o.
Proof.
  intros [[Hb ->]|[-> Hv]]; unfold blank_line, remove_margin.
  - rewrite Hb. reflexivity.
  - rewrite (@visible_not_blank (a :: mg) _ Hv), startswith_app.
    rewrite skipn_app, skipn_all, Nat.sub_diag. reflexivity.
Qed.

(** [dedent] on a text whose lines are all blank or indented by the same
    non-empty run of spaces and tabs. *)
Lemma dedent_uniform a mg l lines outs :
  forallb isblank (a :: mg) = true ->
  Forall (fun l => ~ In LF l) (l :: lines) ->
  Forall2 (dedented (a :: mg)) (l :: lines) outs ->
  Exists (fun o => starts_visible o = true) outs ->
  dedent (join LF (l :: lines)) = join LF outs.
Proof.
  intros Hm Hn Hd He. unfold dedent. rewrite (@split_join _ _ _ Hn).
  cbv zeta.
  destruct (@margin_uniform (a :: mg) (l :: lines) outs Hm Hd None
              (or_introl eq_refl)) as [_ R].
  match goal with
  | |- match ?f with _ => _ end = _ =>
      assert (E : f = Some (a :: mg)) by exact (R He); rewrite E
  end.
  f_equal. rewrite map_map.
  clear E R He Hn. induction Hd as [|x o xs os Hx Hr IH]; simpl; [reflexivity|].
  rewrite (@remove_margin_dedented _ _ _ _ Hx). f_equal. exact IH.
Qed.

Lemma strip_frame s y c2 :
  s = y ++ [c2] -> isspace c2 = false -> starts_nonspace s = true ->
  strip (LF :: s ++ [LF]) = s.
Proof.
  intros E2 H2 H1. unfold strip.
  assert (L : lstrip (LF :: s ++ [LF]) = s ++ [LF]).
  { destruct s as [|c1 x]; [discriminate|]. cbn [starts_nonspace] in H1.
    apply negb_true_iff in H1. simpl. rewrite H1. reflexivity. }
  rewrite L. unfold rstrip. rewrite E2 at 1.
  rewrite !rev_app_distr. simpl. rewrite H2.
  simpl. rewrite rev_involutive. symmetry. exact E2.
Qed.

Lemma join_snoc sep l X : forall x,
  join sep ((x :: X) ++ [l]) = join sep (x :: X) ++ sep :: l.
Proof.
  induction X as [|x' X IH]; intros x; [reflexivity|].
  change (join sep ((x :: x' :: X) ++ [l]))
    with (x ++ sep :: join sep ((x' :: X) ++ [l])).
  rewrite IH. change (join sep (x :: x' :: X)) with (x ++ sep :: join sep (x' :: X)).
  rewrite <- app_assoc. reflexivity.
Qed.

Lemma join_frame sep x X :
  join sep ([] :: (x :: X) ++ [[]]) = sep :: join sep (x :: X) ++ [sep].
Proof.
  change (join sep ([] :: (x :: X) ++ [[]]))
    with ([] ++ sep :: join sep ((x :: X) ++ [[]])).
  rewrite join_snoc. reflexivity.
Qed.

Lemma join_ends sep l : forall ls last_line c,
  last (l :: ls) [] = last_line ++ [c] ->
  exists y, join sep (l :: ls) = y ++ [c].
Proof.
  revert l. intros l ls. revert l.
  induction ls as [|l' ls IH]; intros l last_line c H.
  - simpl in H. exists last_line. exact H.
  - change (last (l :: l' :: ls) []) with (last (l' :: ls) []) in H.
    destruct (IH l' last_line c H) as [y E].
    exists (l ++ sep :: y).
    change (join sep (l :: l' :: ls)) with (l ++ sep :: join sep (l' :: ls)).
    rewrite E, <- app_assoc. reflexivity.
Qed.

(** ** Numerals have digits only *)

Lemma uint_chars_digits u c : In c (uint_chars u) -> (48 <= c <= 57)%N.
Proof.
  induction u; simpl; intros H; try contradiction;
    (destruct H as [<-|H]; [lia|exact (IHu H)]).
Qed.

Lemma digits_no_lf n : ~ In LF (digits n).
Proof. intros H. apply uint_chars_digits in H. unfold LF in H. lia. Qed.

Lemma repeat_no_lf c n : c <> LF -> ~ In LF (repeat c n).
Proof. intros Hc H. apply repeat_spec in H. congruence. Qed.

Lemma format_f_no_lf x nd : ~ In LF (format_f x nd).
Proof.
  assert (Hs : forall s, ~ In LF (sign_chars s))
    by (intros [|]; simpl; intros H; [destruct H as [H|[]]; discriminate H|exact H]).
  assert (Hf : forall n, ~ In LF (fixed n nd)).
  { intros n. unfold fixed. apply no_lf_app; [apply digits_no_lf|].
    destruct nd; [simpl; tauto|].
    apply no_lf_cons; [discriminate|]. unfold zfill.
    apply no_lf_app; [apply repeat_no_lf; discriminate|apply digits_no_lf]. }
  destruct x as [s|s| |s m e]; unfold format_f.
  - apply no_lf_app; [apply Hs|apply Hf].
  - apply no_lf_app; [apply Hs|apply no_lf_check; reflexivity].
  - apply no_lf_check; reflexivity.
  - apply no_lf_app; [apply Hs|apply Hf].
Qed.

(** ** The layout of the description *)

Lemma template_lines voice emotion speed temperature top_p preview :
  summary_template voice emotion speed temperature top_p preview
  = join LF [
      [];
      py "        【占位合成结果说明】";
      [];
      py "        当前 WebUI 处于“轻量演示模式”，不会下载或加载任何真实的 Orpheus-3B 权重，也不会向外部服务发送请求。";
      py "        下述内容仅用于帮助用户从界面层面理解文本转语音系统的配置方式与感知效果：";
      [];
      py "        · 目标模型：" ++ MODEL_NAME;
      py "        · 选定音色：" ++ voice;
      py "        · 情感标签：" ++ emotion;
      py "        · 语速倍率：约为标准语速的 " ++ format_f speed 2 ++ py " 倍";
      py "        · 采样控制：temperature=" ++ format_f temperature 2
        ++ py ", top_p=" ++ format_f top_p 2;
      [];
      py "        · 文本摘要:" ++ QUOTE :: SPACE :: preview ++ [SPACE; QUOTE];
      [];
      py "        在真实部署环境中，本区域将展示：";
      py "        1）生成语音的主观描述（音色、情感、语速等）；";
      py "        2）若干客观指标（流式延迟、生成时长、输出长度等）；";
      py "        3）与历史合成记录的对比结果，用于评估参数调节带来的差异。";
      py "        "
    ].
Proof.
  unfold summary_template. abstract_literals.
  cbn [List.concat join]. normalize_app. rewrite app_nil_r. reflexivity.
Qed.

Ltac dedented_line :=
  match goal with
  | |- dedented _ [] _ => left; split; reflexivity
  | |- dedented _ _ [] => left; split; [vm_compute; reflexivity|reflexivity]
  | |- dedented _ (_ ++ _) _ =>
      right; split; [rewrite app_assoc; f_equal; vm_compute; reflexivity
                    |vm_compute; reflexivity]
  | |- dedented _ _ _ => right; split; vm_compute; reflexivity
  end.

Lemma description_layout_gen v e s t p pv :
  ~ In LF v -> ~ In LF e -> ~ In LF s -> ~ In LF t -> ~ In LF p -> ~ In LF pv ->
  strip (Textwrap.dedent (join LF [
      [];
      py "        【占位合成结果说明】";
      [];
      py "        当前 WebUI 处于“轻量演示模式”，不会下载或加载任何真实的 Orpheus-3B 权重，也不会向外部服务发送请求。";
      py "        下述内容仅用于帮助用户从界面层面理解文本转语音系统的配置方式与感知效果：";
      [];
      py "        · 目标模型：" ++ MODEL_NAME;
      py "        · 选定音色：" ++ v;
      py "        · 情感标签：" ++ e;
      py "        · 语速倍率：约为标准语速的 " ++ s ++ py " 倍";
      py "        · 采样控制：temperature=" ++ t ++ py ", top_p=" ++ p;
      [];
      py "        · 文本摘要:" ++ QUOTE :: SPACE :: pv ++ [SPACE; QUOTE];
      [];
      py "        在真实部署环境中，本区域将展示：";
      py "        1）生成语音的主观描述（音色、情感、语速等）；";
      py "        2）若干客观指标（流式延迟、生成时长、输出长度等）；";
      py "        3）与历史合成记录的对比结果，用于评估参数调节带来的差异。";
      py "        "
    ]))
  = join LF [
      py "【占位合成结果说明】";
      [];
      py "当前 WebUI 处于“轻量演示模式”，不会下载或加载任何真实的 Orpheus-3B 权重，也不会向外部服务发送请求。";
      py "下述内容仅用于帮助用户从界面层面理解文本转语音系统的配置方式与感知效果：";
      [];
      py "· 目标模型：" ++ MODEL_NAME;
      py "· 选定音色：" ++ v;
      py "· 情感标签：" ++ e;
      py "· 语速倍率：约为标准语速的 " ++ s ++ py " 倍";
      py "· 采样控制：temperature=" ++ t ++ py ", top_p=" ++ p;
      [];
      py "· 文本摘要:" ++ QUOTE :: SPACE :: pv ++ [SPACE; QUOTE];
      [];
      py "在真实部署环境中，本区域将展示：";
      py "1）生成语音的主观描述（音色、情感、语速等）；";
      py "2）若干客观指标（流式延迟、生成时长、输出长度等）；";
      py "3）与历史合成记录的对比结果，用于评估参数调节带来的差异。"
    ].
Proof.
  intros Hv He Hs Ht Hp Hpv.
  match goal with
  | |- strip (Textwrap.dedent (join LF (?l :: ?ls))) = join LF (?o :: ?os) =>
      rewrite (@dedent_uniform SPACE (repeat SPACE 7) l ls
                 ([] :: (o :: os) ++ [[]]))
  end.
  - rewrite join_frame.
    match goal with
    | |- strip (LF :: join LF (?l :: ?ls) ++ [LF]) = _ =>
        destruct (@join_ends LF l ls
                    (py "3）与历史合成记录的对比结果，用于评估参数调节带来的差异")
                    12290%N) as [y E]
    end.
    + cbn [last]. vm_compute. reflexivity.
    + apply (@strip_frame _ y 12290%N E); [reflexivity|].
      vm_compute. reflexivity.
  - reflexivity.
  - repeat (apply Forall_cons; [first [assumption|no_lf_tac]|]). apply Forall_nil.
  - cbn [app]. repeat (apply Forall2_cons; [dedented_line|]). apply Forall2_nil.
  - apply Exists_cons_tl, Exists_cons_hd. vm_compute. reflexivity.
Qed.

End Layout.

Section Lines.

Lemma build_summary_layout text voice emotion speed temperature top_p :
  ~ In LF voice -> ~ In LF emotion ->
  _build_summary_text text voice emotion speed temperature top_p
  = join LF (description_lines voice emotion speed temperature top_p
               (preview_of text)).
Proof.
  intros Hv He. unfold _build_summary_text. cbv zeta. rewrite template_lines.
  unfold description_lines.
  apply description_layout_gen;
    first [assumption|apply format_f_no_lf|apply preview_no_lf].
Qed.

Lemma description_lines_no_lf voice emotion speed temperature top_p text :
  ~ In LF voice -> ~ In LF emotion ->
  Forall (fun l => ~ In LF l)
    (description_lines voice emotion speed temperature top_p (preview_of text)).
Proof.
  intros Hv He. unfold description_lines.
  pose proof (@format_f_no_lf speed 2) as Hs.
  pose proof (@format_f_no_lf temperature 2) as Ht.
  pose proof (@format_f_no_lf top_p 2) as Hp.
  repeat (apply Forall_cons; [first [assumption|no_lf_tac]|]). apply Forall_nil.
Qed.

End Lines.

(* ===================================================================== *)
(** * Trimming and the preview *)
(* ===================================================================== *)

Section Trimming.

Lemma lstrip_pad pad s : all_space pad = true -> lstrip (pad ++ s) = lstrip s.
Proof.
  unfold all_space. induction pad as [|c pad IH]; intros H; [reflexivity|].
  cbn [forallb] in H. apply andb_true_iff in H as [Hc H].
  cbn [app lstrip]. rewrite Hc. exact (IH H).
Qed.

Lemma lstrip_app_visible s t : all_space s = false -> lstrip (s ++ t) = lstrip s ++ t.
Proof.
  unfold all_space. induction s as [|c s IH]; intros H; [discriminate|].
  cbn [forallb] in H. cbn [app lstrip].
  destruct (isspace c); [apply IH; exact H|reflexivity].
Qed.

Lemma all_space_rev s : all_space (rev s) = all_space s.
Proof.
  unfold all_space. induction s as [|c s IH]; [reflexivity|].
  cbn [rev forallb]. rewrite forallb_app, IH. cbn [forallb].
  rewrite andb_true_r. apply andb_comm.
Qed.

Lemma rstrip_pad s pad : all_space pad = true -> rstrip (s ++ pad) = rstrip s.
Proof.
  intros H. unfold rstrip. rewrite rev_app_distr, lstrip_pad; [reflexivity|].
  rewrite all_space_rev. exact H.
Qed.

Lemma all_space_app a b : all_space (a ++ b) = all_space a && all_space b.
Proof. apply forallb_app. Qed.

(** [strip] ignores surrounding whitespace. *)
Lemma strip_pad pad1 text pad2 :
  all_space pad1 = true -> all_space pad2 = true ->
  strip (pad1 ++ text ++ pad2) = strip text.
Proof.
  intros H1 H2. unfold strip. rewrite (@lstrip_pad pad1 _ H1).
  destruct (all_space text) eqn:Ht.
  - rewrite (@lstrip_all_space text Ht).
    rewrite lstrip_all_space; [reflexivity|].
    rewrite all_space_app, Ht, H2. reflexivity.
  - rewrite (@lstrip_app_visible text pad2 Ht). apply rstrip_pad. exact H2.
Qed.

Lemma strip_starts text : all_space text = false ->
  starts_nonspace (strip text) = true.
Proof.
  intros H. destruct (@lstrip_visible text H) as (c & r & E & Hc).
  unfold strip. rewrite E.
  destruct (@rstrip_keeps [] c r Hc) as [post E2]. cbn [app] in E2.
  rewrite E2. cbn [starts_nonspace]. rewrite Hc. reflexivity.
Qed.

Lemma preview_starts text : all_space text = false ->
  starts_nonspace (preview_of text) = true.
Proof.
  intros H. pose proof (@strip_starts text H) as Hs. unfold preview_of.
  cbv zeta. destruct (strip text) as [|c r]; [discriminate|].
  cbn [starts_nonspace] in Hs. apply negb_true_iff in Hs.
  assert (Hc : (c =? LF)%N = false).
  { destruct (c =? LF)%N eqn:E; [|reflexivity].
    apply N.eqb_eq in E. subst c. discriminate Hs. }
  unfold replace. cbn [map]. rewrite Hc.
  destruct (80 <? _); cbn [take firstn app starts_nonspace]; rewrite Hs; reflexivity.
Qed.

Lemma preview_length text :
  len (preview_of text) = Z.min (len (strip text)) 81.
Proof.
  unfold preview_of. cbv zeta. unfold len at 1 2.
  rewrite replace_length.
  destruct (80 <? _) eqn:E.
  - apply Z.ltb_lt in E. unfold take, len.
    rewrite length_app, length_firstn, replace_length. simpl List.length. lia.
  - apply Z.ltb_ge in E. unfold len. rewrite replace_length. lia.
Qed.

(** The metrics of two texts differ in the estimated duration only. *)
Lemma ok_metrics_duration_only l text1 text2 voice emotion
    speed temperature top_p :
  exists items1 items2,
    ok_metrics l text1 voice emotion speed temperature top_p = JDict items1
    /\ ok_metrics l text2 voice emotion speed temperature top_p = JDict items2
    /\ keys items1 = keys items2
    /\ forall key, streq (py "estimated_audio_duration_s") key = false ->
         get key items1 = get key items2.
Proof.
  unfold ok_metrics. do 2 eexists. split; [reflexivity|]. split; [reflexivity|].
  split; [unfold keys; cbn [map fst]; reflexivity|]. intros key Hk.
  cbn [get]. rewrite Hk. reflexivity.
Qed.

End Trimming.

(* ===================================================================== *)
(** * The format [.2f] *)
(* ===================================================================== *)

Section Fixed.

Lemma uint_chars_nil u : uint_chars u = [] -> u = Decimal.Nil.
Proof. destruct u; simpl; [reflexivity|discriminate..]. Qed.

Lemma digits_nonempty n : digits n <> [].
Proof.
  unfold digits. intros H. apply uint_chars_nil in H.
  destruct (Z.to_N n) as [|p]; [discriminate|].
  exact (Unsigned.to_uint_nonnil p H).
Qed.

Lemma digits_are_digits n : forallb is_digit (digits n) = true.
Proof.
  apply forallb_forall. intros c H. apply uint_chars_digits in H.
  unfold is_digit. apply andb_true_iff. split; apply N.leb_le; lia.
Qed.

Lemma two_fraction_digits r : 0 <= r < 100 ->
  List.length (zfill 2 (digits r)) = 2%nat
  /\ forallb is_digit (zfill 2 (digits r)) = true.
Proof.
  intros Hr.
  assert (H : all_upto 100 (fun r =>
      (Nat.eqb (List.length (zfill 2 (digits r))) 2)
      && forallb is_digit (zfill 2 (digits r))) = true)
    by (vm_compute; reflexivity).
  pose proof (@all_upto_spec _ _ H r ltac:(lia)) as Hk. cbv beta in Hk.
  apply andb_true_iff in Hk as [Ha Hb]. apply Nat.eqb_eq in Ha.
  split; assumption.
Qed.

Lemma digits_no_point s (x : str) :
  forallb is_digit x = true -> ~ In 46%N (sign_chars s ++ x).
Proof.
  intros H Hin. apply in_app_or in Hin as [Hin|Hin].
  - destruct s; simpl in Hin; [destruct Hin as [E|[]]; discriminate E|exact Hin].
  - rewrite forallb_forall in H. specialize (H _ Hin).
    vm_compute in H. discriminate H.
Qed.

Lemma fixed_two s n :
  exists whole frac,
    sign_chars s ++ fixed n 2 = sign_chars s ++ whole ++ 46%N :: frac
    /\ whole <> [] /\ forallb is_digit whole = true
    /\ List.length frac = 2%nat /\ forallb is_digit frac = true
    /\ fraction_digits (sign_chars s ++ fixed n 2) = 2%nat.
Proof.
  unfold fixed. change (10 ^ Z.of_nat 2) with 100.
  pose proof (Z.mod_pos_bound n 100 ltac:(lia)) as Hr.
  destruct (@two_fraction_digits (n mod 100) Hr) as [Hl Hd].
  exists (digits (n / 100)), (zfill 2 (digits (n mod 100))).
  split; [reflexivity|]. split; [apply digits_nonempty|].
  split; [apply digits_are_digits|]. split; [exact Hl|]. split; [exact Hd|].
  unfold fraction_digits. rewrite app_assoc, split_app.
  rewrite (@split_line 46%N _ (@digits_no_point s _ (digits_are_digits _))).
  rewrite (@split_line 46%N (zfill 2 (digits (n mod 100)))).
  - exact Hl.
  - exact (@digits_no_point false _ Hd).
Qed.

End Fixed.

(* ===================================================================== *)
(** * The thresholds of the estimated duration *)
(* ===================================================================== *)

Section Duration.

Lemma duration_floor n : 0 <= n <= 18 -> duration_at n = literal 15 1.
Proof.
  intros Hn.
  assert (H : all_upto 19 (fun n => same_float (duration_at n) (literal 15 1))
              = true) by (vm_compute; reflexivity).
  apply same_float_eq. exact (@all_upto_spec _ _ H n ltac:(lia)).
Qed.

Lemma duration_inside n : 18 < n < 216 ->
  flt (literal 15 1) (duration_at n) = true
  /\ flt (duration_at n) (literal 180 1) = true.
Proof.
  intros Hn.
  assert (H : all_upto 216 (fun n => (n <=? 18) ||
      (flt (literal 15 1) (duration_at n)
       && flt (duration_at n) (literal 180 1))) = true)
    by (vm_compute; reflexivity).
  pose proof (@all_upto_spec _ _ H n ltac:(lia)) as Hk. cbv beta in Hk.
  apply orb_true_iff in Hk as [Hk|Hk]; [apply Z.leb_le in Hk; lia|].
  apply andb_true_iff in Hk. exact Hk.
Qed.

Lemma flt_finite m1 e1 m2 e2 :
  flt (S754_finite false m1 e1) (S754_finite false m2 e2) = true
  <-> e1 < e2 \/ (e1 = e2 /\ (m1 < m2)%positive).
Proof.
  unfold flt, SFltb, SFcompare.
  change (Pos.compare_cont Eq m1 m2) with (Pos.compare m1 m2).
  destruct (e1 ?= e2) eqn:E.
  - apply Z.compare_eq in E. split.
    + intros H. right. split; [exact E|]. unfold Pos.lt.
      destruct (Pos.compare m1 m2); try discriminate; reflexivity.
    + intros [H|[_ H]]; [lia|]. unfold Pos.lt in H. rewrite H. reflexivity.
  - apply Z.compare_lt_iff in E. split; [intros _; left; exact E|reflexivity].
  - apply Z.compare_gt_iff in E. split; [discriminate|].
    intros [H|[H _]]; lia.
Qed.

Lemma flt_finite_trans m1 e1 m2 e2 m3 e3 :
  flt (S754_finite false m1 e1) (S754_finite false m2 e2) = true ->
  flt (S754_finite false m2 e2) (S754_finite false m3 e3) = true ->
  flt (S754_finite false m1 e1) (S754_finite false m3 e3) = true.
Proof.
  rewrite !flt_finite. intros [H1|[H1 K1]] [H2|[H2 K2]];
    [left; lia|left; lia|left; lia|right; split; lia].
Qed.

(** One more character, from 18 to 215 of them, gives a greater duration. *)
Lemma duration_step n : 18 <= n < 216 ->
  exists m e m' e',
    duration_at n = S754_finite false m e
    /\ duration_at (n + 1) = S754_finite false m' e'
    /\ flt (S754_finite false m e) (S754_finite false m' e') = true.
Proof.
  intros Hn.
  assert (H : all_upto 216 (fun n => (n <? 18) ||
      match duration_at n, duration_at (n + 1) with
      | S754_finite false m e, S754_finite false m' e' =>
          flt (S754_finite false m e) (S754_finite false m' e')
      | _, _ => false
      end) = true)
    by (vm_compute; reflexivity).
  pose proof (@all_upto_spec _ _ H n ltac:(lia)) as Hk. cbv beta in Hk.
  apply orb_true_iff in Hk as [Hk|Hk]; [apply Z.ltb_lt in Hk; lia|].
  destruct (duration_at n) as [| | |[|] m e]; try discriminate Hk.
  destruct (duration_at (n + 1)) as [| | |[|] m' e']; try discriminate Hk.
  exists m, e, m', e'. split; [reflexivity|]. split; [reflexivity|exact Hk].
Qed.

Lemma duration_increases n1 n2 : 18 <= n1 -> n1 < n2 -> n2 <= 216 ->
  flt (duration_at n1) (duration_at n2) = true.
Proof.
  intros H1 H12 H2.
  assert (G : forall k : nat, n1 + 1 + Z.of_nat k <= 216 ->
            flt (duration_at n1) (duration_at (n1 + 1 + Z.of_nat k)) = true).
  { induction k as [|k IH]; intros Hb.
    - replace (n1 + 1 + Z.of_nat 0) with (n1 + 1) by lia.
      destruct (@duration_step n1 ltac:(lia)) as (m & e & m' & e' & E1 & E2 & K).
      rewrite E1, E2. exact K.
    - specialize (IH ltac:(lia)).
      destruct (@duration_step n1 ltac:(lia)) as (m & e & _ & _ & E1 & _ & _).
      destruct (@duration_step (n1 + 1 + Z.of_nat k) ltac:(lia))
        as (m2 & e2 & m3 & e3 & E2 & E3 & K).
      replace (n1 + 1 + Z.of_nat (S k)) with (n1 + 1 + Z.of_nat k + 1) by lia.
      rewrite E1, E2 in IH. rewrite E1, E3.
      exact (@flt_finite_trans _ _ _ _ _ _ IH K). }
  replace n2 with (n1 + 1 + Z.of_nat (Z.to_nat (n2 - n1 - 1))) by lia.
  apply G. lia.
Qed.

Lemma duration_numeral n : 0 <= n ->
  (1 <= fraction_digits (floatstr (duration_at n)) <= 2)%nat.
Proof.
  intros Hn. destruct (Z_lt_ge_dec n 216) as [Hs|Hb].
  - assert (H : all_upto 216 (fun n =>
        let k := fraction_digits (floatstr (duration_at n)) in
        Nat.leb 1 k && Nat.leb k 2) = true)
      by (vm_compute; reflexivity).
    pose proof (@all_upto_spec _ _ H n ltac:(lia)) as Hk. cbv beta zeta in Hk.
    apply andb_true_iff in Hk as [Ha Hb].
    apply Nat.leb_le in Ha. apply Nat.leb_le in Hb. split; assumption.
  - rewrite (@duration_saturated n) by lia. vm_compute. split; lia.
Qed.

Lemma len_nonneg (s : str) : 0 <= len s.
Proof. unfold len. lia. Qed.

End Duration.

(* ===================================================================== *)
(** * Ordered clock readings *)
(* ===================================================================== *)

Section Clock.

Lemma reading_normal_shape t : reading_normal t = true ->
  exists m e, t = S754_finite false m e
              /\ 2 ^ 52 <= Zpos m < 2 ^ 53 /\ e <= 9.
Proof.
  destruct t as [| | |[|] m e]; simpl; try discriminate.
  intros H. apply andb_true_iff in H as [H He].
  apply andb_true_iff in H as [Hl Hu].
  apply Z.leb_le in Hl. apply Z.ltb_lt in Hu. apply Z.leb_le in He.
  exists m, e. split; [reflexivity|]. split; [split|]; assumption.
Qed.

Lemma reading_normal_ok t : reading_normal t = true -> reading_ok t = true.
Proof.
  intros H. destruct (reading_normal_shape _ H) as (m & e & -> & Hm & He).
  simpl. apply andb_true_iff. split; [apply Z.ltb_lt|apply Z.leb_le]; lia.
Qed.

Lemma finish_sign m3 e3 : 0 <= m3 ->
  match finish false m3 e3 with
  | S754_zero _ | S754_finite false _ _ | S754_infinity _ => True
  | _ => False
  end.
Proof.
  intros H. destruct m3 as [|q|q]; [exact I| |lia].
  unfold finish. destruct (e3 <=? _); exact I.
Qed.

(** The difference of a later and an earlier reading is not negative. *)
Lemma fsub_ordered t1 t0 :
  reading_normal t1 = true -> reading_normal t0 = true -> fle t0 t1 = true ->
  match fsub t1 t0 with
  | S754_zero _ => True
  | S754_finite s m e => s = false /\ Zpos m < 2 ^ 53 /\ e <= 11
  | _ => False
  end.
Proof.
  intros H1 H0 Hle.
  pose proof (@fsub_small t1 t0 (reading_normal_ok _ H1) (reading_normal_ok _ H0))
    as Hs.
  destruct (reading_normal_shape _ H1) as (m1 & e1 & -> & Hm1 & He1).
  destruct (reading_normal_shape _ H0) as (m0 & e0 & -> & Hm0 & He0).
  assert (Hord : e0 < e1 \/ (e0 = e1 /\ Zpos m0 <= Zpos m1)).
  { unfold fle, SFleb, SFcompare in Hle.
    destruct (e0 ?= e1) eqn:E.
    - apply Z.compare_eq in E. right. split; [exact E|].
      destruct (Pos.compare_cont Eq m0 m1) eqn:C; try discriminate.
      + apply Pos.compare_eq in C. subst. lia.
      + change (Pos.compare m0 m1 = Lt) in C. rewrite Pos.compare_lt_iff in C. lia.
    - left. apply Z.compare_lt_iff. exact E.
    - discriminate. }
  revert Hs. unfold fsub, SFsub.
  set (ez := Z.min e1 e0).
  pose proof (@shl_align_fst m1 e1 ez ltac:(unfold ez; lia)) as A1.
  pose proof (@shl_align_fst m0 e0 ez ltac:(unfold ez; lia)) as A0.
  set (M1 := Zpos (fst (shl_align m1 e1 ez))) in *.
  set (M0 := Zpos (fst (shl_align m0 e0 ez))) in *.
  assert (HD : 0 <= M1 - M0).
  { rewrite A1, A0. destruct Hord as [Hlt|[-> Hm]].
    - replace ez with e0 by (unfold ez; lia). rewrite Z.sub_diag.
      change (2 ^ 0) with 1.
      assert (2 <= 2 ^ (e1 - e0)).
      { change 2 with (2 ^ 1) at 1. apply Z.pow_le_mono_r; lia. }
      change (2 ^ 53) with (2 ^ 52 * 2) in *. nia.
    - replace (e1 - ez) with 0 by (unfold ez; lia). change (2 ^ 0) with 1. lia. }
  unfold cond_Zopp, binary_normalize.
  destruct (M1 - M0) as [|pd|pd] eqn:ED; [intros _; exact I| |lia].
  destruct (@binary_round_shape false pd ez (Z.log2 (Zpos pd) + 1)
              ltac:(apply Z.log2_spec; lia)
              ltac:(pose proof (Z.log2_nonneg (Zpos pd)); lia))
    as (m3 & e3 & Hb & Hm & He).
  rewrite Hb. pose proof (@finish_sign m3 e3 ltac:(lia)) as Hf.
  destruct (finish false m3 e3) as [s| | |s m e]; try contradiction;
    [intros _; exact I|].
  destruct s; [contradiction|]. simpl. intros [Ha Hb']. tauto.
Qed.

(** With ordered readings the measured time is not negative. *)
Lemma elapsed_nonneg w :
  reading_normal (clock w (ticks w)) = true ->
  reading_normal (clock w (S (ticks w))) = true ->
  fle (clock w (ticks w)) (clock w (S (ticks w))) = true ->
  exists base, elapsed_ms w = Ok base /\ 0 <= base.
Proof.
  intros H0 H1 Hle. unfold elapsed_ms.
  pose proof (@fsub_ordered _ _ H1 H0 Hle) as Hs.
  destruct (fsub (clock w (S (ticks w))) (clock w (ticks w))) as [s| | |s m e];
    try contradiction.
  - rewrite of_int_1000. simpl. exists 0. split; [reflexivity|lia].
  - destruct Hs as (-> & Hm & He). rewrite of_int_1000. unfold fmul, SFmul.
    destruct (@bra_shape (xorb false false) (m * 8796093022208000) (e + -43)
                loc_Exact) as (m3 & e3 & Hb & Hm3 & He3 & _).
    rewrite Hb.
    assert (Hp : Zpos (m * 8796093022208000) < 2 ^ 106).
    { rewrite Pos2Z.inj_mul. change (2 ^ 106) with (2 ^ 53 * 2 ^ 53). nia. }
    pose proof (@digits2_le _ _ Hp ltac:(lia)) as Hd.
    simpl Zdigits2 in He3. unfold fexp, emin, prec, emax in He3.
    destruct m3 as [|q|q]; [| |lia]; unfold finish.
    + exists 0. split; [reflexivity|lia].
    + replace (e3 <=? emax - prec) with true
        by (symmetry; apply Z.leb_le; unfold emax, prec; lia).
      cbn [xorb py_int]. eexists. split; [reflexivity|].
      apply Z.shiftl_nonneg. lia.
Qed.

End Clock.

(* ===================================================================== *)
(** * The two numerals of a number *)
(* ===================================================================== *)

Section Agreement.

Lemma round_half_even_nonneg n d : 0 <= n -> 0 < d -> 0 <= round_half_even n d.
Proof.
  intros Hn Hd. unfold round_half_even. cbv zeta.
  pose proof (Z.div_pos n d Hn Hd) as Hq.
  destruct (2 * (n mod d) ?= d); [destruct (Z.even (n / d))| |]; lia.
Qed.

Lemma scaled_nonneg m e nd : 0 <= scaled m e nd.
Proof.
  unfold scaled, magnitude.
  assert (Ht : 0 < 10 ^ Z.of_nat nd) by (apply Z.pow_pos_nonneg; lia).
  destruct e as [|k|k].
  - apply round_half_even_nonneg; [|lia]. change (2 ^ 0) with 1. lia.
  - apply round_half_even_nonneg; [|lia].
    assert (0 < 2 ^ Zpos k) by (apply Z.pow_pos_nonneg; lia). nia.
  - apply round_half_even_nonneg; [lia|]. apply Z.pow_pos_nonneg; lia.
Qed.

Lemma hundredths_agree s h : 0 <= h <= 2000 ->
  floatstr (of_ratio s h (Z.to_pos (10 ^ Z.of_nat 2)))
  = shorten (sign_chars s ++ fixed h 2)
  /\ format_f (of_ratio s h (Z.to_pos (10 ^ Z.of_nat 2))) 2
     = sign_chars s ++ fixed h 2.
Proof.
  intros Hh.
  assert (H : forall s, all_upto 2001 (fun h =>
      streq (floatstr (of_ratio s h (Z.to_pos (10 ^ Z.of_nat 2))))
            (shorten (sign_chars s ++ fixed h 2))
      && streq (format_f (of_ratio s h (Z.to_pos (10 ^ Z.of_nat 2))) 2)
               (sign_chars s ++ fixed h 2)) = true)
    by (intros [|]; vm_compute; reflexivity).
  pose proof (@all_upto_spec _ _ (H s) h ltac:(lia)) as Hk. cbv beta in Hk.
  apply andb_true_iff in Hk as [Ha Hb].
  split; apply streq_eq; assumption.
Qed.

End Agreement.

(* ===================================================================== *)
(** * The lines of the metrics text *)
(* ===================================================================== *)

Section Serialized.

Lemma no_lf_firstn n (l : str) : ~ In LF l -> ~ In LF (firstn n l).
Proof.
  intros H Hin. apply H. rewrite <- (firstn_skipn n l).
  apply in_or_app. left. exact Hin.
Qed.

Lemma no_lf_skipn n (l : str) : ~ In LF l -> ~ In LF (skipn n l).
Proof.
  intros H Hin. apply H. rewrite <- (firstn_skipn n l).
  apply in_or_app. right. exact Hin.
Qed.

Lemma zfill_no_lf w n : ~ In LF (zfill w (digits n)).
Proof.
  unfold zfill. apply no_lf_app; [apply repeat_no_lf; discriminate|].
  apply digits_no_lf.
Qed.

Lemma layout_no_lf ds decpt : ~ In LF ds -> ~ In LF (layout ds decpt).
Proof.
  intros H. unfold layout. cbv zeta.
  destruct ((-4 <? decpt) && (decpt <=? 16)).
  - destruct (decpt <=? 0).
    + apply no_lf_app; [apply no_lf_check; reflexivity|].
      apply no_lf_app; [apply repeat_no_lf; discriminate|exact H].
    + destruct (_ <=? decpt).
      * apply no_lf_app; [exact H|].
        apply no_lf_app; [apply repeat_no_lf; discriminate|].
        apply no_lf_check; reflexivity.
      * apply no_lf_app; [apply no_lf_firstn; exact H|].
        apply no_lf_cons; [discriminate|apply no_lf_skipn; exact H].
  - apply no_lf_app; [apply no_lf_firstn; exact H|].
    apply no_lf_app.
    + pose proof (@no_lf_skipn 1 ds H) as Hs.
      destruct (skipn 1 ds) as [|c r]; [simpl; tauto|].
      apply no_lf_cons; [discriminate|exact Hs].
    + apply no_lf_cons; [discriminate|].
      apply no_lf_cons; [destruct (_ <? 0); discriminate|].
      apply zfill_no_lf.
Qed.

Lemma sign_chars_no_lf s : ~ In LF (sign_chars s).
Proof.
  destruct s; simpl; intros H; [destruct H as [H|[]]; discriminate H|exact H].
Qed.

Lemma repr_no_lf x : ~ In LF (repr x).
Proof.
  destruct x as [s|s| |s m e]; unfold repr.
  - apply no_lf_app; [apply sign_chars_no_lf|apply no_lf_check; reflexivity].
  - apply no_lf_app; [apply sign_chars_no_lf|apply no_lf_check; reflexivity].
  - apply no_lf_check; reflexivity.
  - unfold repr_finite.
    destruct (magnitude m e) as [n d].
    destruct (shortest 16 (S754_finite false m e) n d (decpt_of n d) 1) as [D q].
    destruct (strip_zeros 20 D q) as [D' q'].
    cbv zeta. apply no_lf_app; [apply sign_chars_no_lf|].
    apply layout_no_lf. apply digits_no_lf.
Qed.

Lemma floatstr_no_lf x : ~ In LF (floatstr x).
Proof.
  pose proof (repr_no_lf x) as H.
  destruct x as [s|[|]| |s m e]; unfold floatstr; try exact H;
    apply no_lf_check; reflexivity.
Qed.

Lemma repr_int_no_lf n : ~ In LF (repr_int n).
Proof.
  unfold repr_int. apply no_lf_app; [apply sign_chars_no_lf|apply digits_no_lf].
Qed.

Lemma hex_digit_no_lf n : hex_digit n <> LF.
Proof.
  unfold hex_digit, LF. destruct (n <? 10)%N eqn:E; [|lia].
  apply N.ltb_lt in E. lia.
Qed.

Lemma escape_char_no_lf c : ~ In LF (escape_char c).
Proof.
  unfold escape_char.
  repeat match goal with
  | |- ~ In LF (if ?b then _ else _) =>
      let E := fresh "E" in destruct b eqn:E
  end;
  try (apply no_lf_check; reflexivity).
  - repeat (apply no_lf_cons; [first [discriminate|apply hex_digit_no_lf]|]).
    simpl; tauto.
  - apply no_lf_cons; [|simpl; tauto].
    intros ->. discriminate.
Qed.

(** A serialized string stays on its line: a newline is written as a
    backslash and the letter n. *)
Lemma encode_str_no_lf s : ~ In LF (encode_str s).
Proof.
  unfold encode_str. apply no_lf_cons; [discriminate|].
  apply no_lf_app; [|apply no_lf_check; reflexivity].
  intros H. apply in_flat_map in H as (c & _ & H).
  exact (escape_char_no_lf c H).
Qed.

End Serialized.

Ltac metrics_no_lf :=
  match goal with
  | |- ~ In LF (encode_str _) => apply encode_str_no_lf
  | |- ~ In LF (floatstr _) => apply floatstr_no_lf
  | |- ~ In LF (repr_int _) => apply repr_int_no_lf
  | |- ~ In LF (repeat _ _) => apply repeat_no_lf; discriminate
  | |- ~ In LF (_ ++ _) => apply no_lf_app; metrics_no_lf
  | |- ~ In LF (_ :: _) => apply no_lf_cons; [discriminate|metrics_no_lf]
  | |- ~ In LF [] => simpl; tauto
  | |- _ => apply no_lf_check; vm_compute; reflexivity
  end.


(* ===================================================================== *)
(** * Further properties of [app.py] *)
(* ===================================================================== *)

(** X1. When the voice and the emotion contain no newline,
    [_build_summary_text] returns exactly seventeen lines: the lines of the
    template with the margin of eight spaces removed from each, the blank
    lines empty, no line before the heading and none after the last
    sentence; the voice, the emotion, the three numbers and the preview
    stand in their lines as they were interpolated. *)
Theorem X1_description_layout text voice emotion speed temperature top_p :
  ~ In LF voice -> ~ In LF emotion ->
  _build_summary_text text voice emotion speed temperature top_p
  = join LF (description_lines voice emotion speed temperature top_p
               (preview_of text))
  /\ split LF (_build_summary_text text voice emotion speed temperature top_p)
     = description_lines voice emotion speed temperature top_p (preview_of text).
Proof.
  intros Hv He. rewrite (@build_summary_layout _ _ _ _ _ _ Hv He).
  split; [reflexivity|].
  pose proof (@description_lines_no_lf voice emotion speed temperature top_p
                text Hv He) as H.
  unfold description_lines in *. apply split_join. exact H.
Qed.

Lemma X1_description_layout_witness :
  ~ In LF TARA /\ ~ In LF NEUTRAL
  /\ split LF (_build_summary_text HELLO TARA NEUTRAL
                 (literal 10 1) (literal 6 1) (literal 9 1))
     = description_lines TARA NEUTRAL (literal 10 1) (literal 6 1)
         (literal 9 1) (preview_of HELLO).
Proof.
  assert (Hv : ~ In LF TARA) by (apply no_lf_check; reflexivity).
  assert (He : ~ In LF NEUTRAL) by (apply no_lf_check; reflexivity).
  split; [exact Hv|]. split; [exact He|].
  apply (@X1_description_layout HELLO TARA NEUTRAL (literal 10 1)
           (literal 6 1) (literal 9 1) Hv He).
Defined.

(** X2. The format [.2f] of lines 57 and 58 writes every float that is a
    number, whatever its size and sign, as an optional minus sign, at least
    one digit, a point and exactly two digits: the description always shows
    the speed, the temperature and [top_p] with two decimals. *)
Theorem X2_two_decimals_shown (x : float) :
  is_number x = true ->
  exists whole frac,
    format_f x 2 = sign_chars (negative x) ++ whole ++ 46%N :: frac
    /\ whole <> [] /\ forallb is_digit whole = true
    /\ List.length frac = 2%nat /\ forallb is_digit frac = true
    /\ fraction_digits (format_f x 2) = 2%nat.
Proof.
  destruct x as [s| | |s m e]; try discriminate; intros _;
    unfold format_f, negative; apply fixed_two.
Qed.

Lemma X2_two_decimals_shown_witness :
  is_number (literal 10 1) = true
  /\ fraction_digits (format_f (literal 10 1) 2) = 2%nat.
Proof.
  split; [reflexivity|].
  destruct (@X2_two_decimals_shown (literal 10 1) eq_refl)
    as (whole & frac & _ & _ & _ & _ & _ & H).
  exact H.
Defined.

(** X3. The preview of lines 43-45 has at most 81 characters and no
    newline, for every text; it has 81 exactly when the trimmed text has
    more than 80, and then it ends with the ellipsis; otherwise it has the
    length of the trimmed text; for a text that is not blank it starts with
    a character that is not whitespace. *)
Theorem X3_preview_shape (text : str) :
  len (preview_of text) <= 81
  /\ ~ In LF (preview_of text)
  /\ (len (preview_of text) = 81 <-> 80 < len (strip text))
  /\ (len (strip text) <= 80 -> len (preview_of text) = len (strip text))
  /\ (80 < len (strip text) -> last (preview_of text) SPACE = ELLIPSIS)
  /\ (all_space text = false -> starts_nonspace (preview_of text) = true).
Proof.
  pose proof (preview_length text) as L.
  split; [lia|]. split; [apply preview_no_lf|]. split; [lia|].
  split; [lia|]. split; [|apply preview_starts].
  intros H. unfold preview_of. cbv zeta.
  assert (E : (80 <? len (replace LF SPACE (strip text))) = true).
  { apply Z.ltb_lt. unfold len in *. rewrite replace_length. exact H. }
  rewrite E. apply last_last.
Qed.

(** X4. Whitespace around the text changes the estimated duration and
    nothing else: a text and the same text with whitespace before and after
    it get the same description, with the same preview, and metrics with
    the same keys and the same value under every key other than
    [estimated_audio_duration_s], while the duration of the padded text is
    computed from its full length, the whitespace counted (line 43 trims,
    line 101 does not). *)
Theorem X4_padding_ignored pad1 pad2 text voice emotion
    speed temperature top_p w :
  all_space pad1 = true -> all_space pad2 = true ->
  all_space text = false -> clock_ok w = true ->
  let padded := pad1 ++ text ++ pad2 in
  exists latency_ms description items1 items2,
    generate_tts_demo text voice emotion speed temperature top_p w
    = Ok ((description, dumps (JDict items1) 2), after_ok w)
    /\ generate_tts_demo padded voice emotion speed temperature top_p w
       = Ok ((description, dumps (JDict items2) 2), after_ok w)
    /\ JDict items1
       = ok_metrics latency_ms text voice emotion speed temperature top_p
    /\ JDict items2
       = ok_metrics latency_ms padded voice emotion speed temperature top_p
    /\ preview_of padded = preview_of text
    /\ get (py "estimated_audio_duration_s") items1
       = Some (JFloat (duration_at (len text)))
    /\ get (py "estimated_audio_duration_s") items2
       = Some (JFloat (duration_at (len pad1 + len text + len pad2)))
    /\ keys items1 = keys items2
    /\ (forall key, streq (py "estimated_audio_duration_s") key = false ->
          get key items1 = get key items2).
Proof.
  intros H1 H2 Ht Hw padded.
  assert (Hp : all_space padded = false).
  { unfold padded. rewrite !all_space_app, Ht, andb_false_r. reflexivity. }
  assert (Hs : strip padded = strip text) by (apply strip_pad; assumption).
  assert (Hv : preview_of padded = preview_of text)
    by (unfold preview_of; rewrite Hs; reflexivity).
  destruct (@elapsed_defined w Hw) as [base Hb].
  destruct (@ok_metrics_duration_only (base + offset_of w) text padded
              voice emotion speed temperature top_p)
    as (i1 & i2 & E1 & E2 & K & G).
  destruct (@ok_metrics_fields (base + offset_of w) text voice emotion
              speed temperature top_p) as (j1 & F1 & _ & _ & _ & D1 & _).
  destruct (@ok_metrics_fields (base + offset_of w) padded voice emotion
              speed temperature top_p) as (j2 & F2 & _ & _ & _ & D2 & _).
  rewrite E1 in F1. injection F1 as <-.
  rewrite E2 in F2. injection F2 as <-.
  exists (base + offset_of w),
    (_build_summary_text text voice emotion speed temperature top_p), i1, i2.
  split; [rewrite <- E1; apply run_ok; assumption|].
  split.
  { rewrite <- E2, (@run_ok padded voice emotion speed temperature top_p w base Hp Hb).
    unfold _build_summary_text. rewrite Hv. reflexivity. }
  split; [symmetry; exact E1|]. split; [symmetry; exact E2|].
  split; [exact Hv|]. split; [exact D1|].
  split; [|split; [exact K|exact G]].
  rewrite D2. unfold padded, len. rewrite !length_app. do 3 f_equal. lia.
Qed.

Lemma X4_padding_ignored_witness :
  all_space LEADING = true /\ all_space TRAILING = true
  /\ all_space HELLO = false /\ clock_ok steady_world = true
  /\ preview_of (LEADING ++ HELLO ++ TRAILING) = preview_of HELLO
  /\ exists items1 items2,
       get (py "estimated_audio_duration_s") items2
       = Some (JFloat (duration_at (len LEADING + len HELLO + len TRAILING)))
       /\ keys items1 = keys items2.
Proof.
  split; [reflexivity|]. split; [reflexivity|].
  split; [reflexivity|]. split; [reflexivity|].
  destruct (@X4_padding_ignored LEADING TRAILING HELLO TARA NEUTRAL
              (literal 10 1) (literal 6 1) (literal 9 1) steady_world
              eq_refl eq_refl eq_refl eq_refl)
    as (l & description & items1 & items2 & _ & _ & _ & _ & H5 & _ & H7 & H8 & _).
  split; [exact H5|]. exists items1, items2. split; [exact H7|exact H8].
Defined.

(** X5. The estimated duration of line 101, rounded as in line 107, is
    exactly 1.5 for every text of at most 18 characters and exactly 18.0
    for every text of at least 216; for the lengths between them it lies
    strictly between the two bounds. *)
Theorem X5_duration_thresholds (text : str) :
  let d := round (pseudo_duration text) 2 in
  (len text <= 18 -> d = literal 15 1)
  /\ (216 <= len text -> d = literal 180 1)
  /\ (18 < len text < 216 ->
      flt (literal 15 1) d = true /\ flt d (literal 180 1) = true).
Proof.
  cbv zeta. change (round (pseudo_duration text) 2) with (duration_at (len text)).
  pose proof (len_nonneg text) as H0.
  split; [intros H; apply duration_floor; lia|].
  split; [apply duration_saturated|apply duration_inside].
Qed.

(** X6. Between the two bounds the estimated duration tells lengths apart:
    of two texts with lengths from 18 to 216, the longer one gets the
    strictly greater rounded duration. *)
Theorem X6_duration_strictly_increases (text1 text2 : str) :
  18 <= len text1 -> len text1 < len text2 -> len text2 <= 216 ->
  flt (round (pseudo_duration text1) 2) (round (pseudo_duration text2) 2) = true.
Proof.
  change (round (pseudo_duration text1) 2) with (duration_at (len text1)).
  change (round (pseudo_duration text2) 2) with (duration_at (len text2)).
  apply duration_increases.
Qed.

Lemma X6_duration_strictly_increases_witness :
  18 <= len EIGHTEEN /\ len EIGHTEEN < len NINETEEN /\ len NINETEEN <= 216
  /\ flt (round (pseudo_duration EIGHTEEN) 2)
         (round (pseudo_duration NINETEEN) 2) = true.
Proof.
  assert (H1 : 18 <= len EIGHTEEN) by (vm_compute; discriminate).
  assert (H2 : len EIGHTEEN < len NINETEEN) by reflexivity.
  assert (H3 : len NINETEEN <= 216) by (vm_compute; discriminate).
  split; [exact H1|]. split; [exact H2|]. split; [exact H3|].
  apply (@X6_duration_strictly_increases EIGHTEEN NINETEEN H1 H2 H3).
Defined.

(** X7. When the two readings of the clock are positive normal doubles and
    the second is not before the first, the elapsed milliseconds of line
    100 are not negative, and the reported [latency_ms] is at least 50. *)
Theorem X7_ordered_clock_latency text voice emotion speed temperature top_p w :
  all_space text = false ->
  reading_normal (clock w (ticks w)) = true ->
  reading_normal (clock w (S (ticks w))) = true ->
  fle (clock w (ticks w)) (clock w (S (ticks w))) = true ->
  exists base items,
    elapsed_ms w = Ok base /\ 0 <= base
    /\ generate_tts_demo text voice emotion speed temperature top_p w
       = Ok ((_build_summary_text text voice emotion speed temperature top_p,
              dumps (JDict items) 2), after_ok w)
    /\ get (py "latency_ms") items = Some (JInt (base + offset_of w))
    /\ 50 <= base + offset_of w.
Proof.
  intros Ht H0 H1 Hle.
  destruct (@elapsed_nonneg w H0 H1 Hle) as (base & Hb & Hn).
  destruct (@ok_metrics_fields (base + offset_of w) text voice emotion
              speed temperature top_p) as (items & E & _ & _ & L & _).
  pose proof (offset_range w) as Ho.
  exists base, items. split; [exact Hb|]. split; [exact Hn|].
  split; [rewrite <- E; apply run_ok; assumption|].
  split; [exact L|lia].
Qed.

Lemma X7_ordered_clock_latency_witness :
  all_space HELLO = false
  /\ reading_normal (clock steady_world (ticks steady_world)) = true
  /\ reading_normal (clock steady_world (S (ticks steady_world))) = true
  /\ fle (clock steady_world (ticks steady_world))
         (clock steady_world (S (ticks steady_world))) = true
  /\ exists base items,
       get (py "latency_ms") items = Some (JInt (base + offset_of steady_world))
       /\ 50 <= base + offset_of steady_world.
Proof.
  split; [reflexivity|]. split; [reflexivity|].
  split; [reflexivity|]. split; [reflexivity|].
  destruct (@X7_ordered_clock_latency HELLO TARA NEUTRAL (literal 10 1)
              (literal 6 1) (literal 9 1) steady_world
              eq_refl eq_refl eq_refl eq_refl)
    as (base & items & _ & _ & _ & H4 & H5).
  exists base, items. split; [exact H4|exact H5].
Defined.

(** X8. The metrics text of a normal response has fourteen lines, one per
    field and per brace, whatever the voice and the emotion contain:
    [json.dumps] escapes a newline inside a string, so splitting the text
    at its newlines gives back the lines it was built from, with the
    latency in the fourth, the voice in the sixth and the emotion in the
    seventh. *)
Theorem X8_metrics_line_per_field latency_ms text voice emotion
    speed temperature top_p :
  exists lines,
    dumps (ok_metrics latency_ms text voice emotion speed temperature top_p) 2
    = join LF lines
    /\ split LF (dumps (ok_metrics latency_ms text voice emotion
                                   speed temperature top_p) 2) = lines
    /\ List.length lines = 14%nat
    /\ nth 3 lines []
       = repeat SPACE 2 ++ encode_str (py "latency_ms") ++ py ": "
           ++ repr_int latency_ms ++ [44%N]
    /\ nth 5 lines []
       = repeat SPACE 2 ++ encode_str (py "voice") ++ py ": "
           ++ encode_str voice ++ [44%N]
    /\ nth 6 lines []
       = repeat SPACE 2 ++ encode_str (py "emotion") ++ py ": "
           ++ encode_str emotion ++ [44%N].
Proof.
  rewrite dumps_ok_metrics. unfold metrics_text.
  match goal with
  | |- exists lines, join LF ?L = _ /\ _ => exists L
  end.
  split; [reflexivity|].
  split; [|repeat split; reflexivity].
  apply split_join.
  repeat (apply Forall_cons; [metrics_no_lf|]). apply Forall_nil.
Qed.

(** X9. The numeral of [estimated_audio_duration_s] in the metrics has one
    or two decimal digits, for every text. *)
Theorem X9_duration_one_or_two_decimals (text : str) :
  (1 <= fraction_digits (floatstr (round (pseudo_duration text) 2)) <= 2)%nat.
Proof.
  change (round (pseudo_duration text) 2) with (duration_at (len text)).
  apply duration_numeral. apply len_nonneg.
Qed.

(** X10. The description and the metrics show the same number: for a
    finite float of either sign whose value rounds to at most 20.00, the
    numeral that [json.dumps] writes for [round(x, 2)] is the numeral of
    the format [.2f] without its last digit when that is a zero, and
    formatting the rounded value again gives the same two decimals. *)
Theorem X10_numerals_agree (s : bool) (m : positive) (e : Z) :
  scaled m e 2 <= 2000 ->
  let x := S754_finite s m e in
  floatstr (round x 2) = shorten (format_f x 2)
  /\ format_f (round x 2) 2 = format_f x 2.
Proof.
  intros Hh x. unfold x, round. cbn [format_f].
  apply hundredths_agree. split; [apply scaled_nonneg|exact Hh].
Qed.

Lemma X10_numerals_agree_witness :
  scaled 6755399441055744 (-52) 2 <= 2000
  /\ floatstr (round ONE_AND_HALF 2) = shorten (format_f ONE_AND_HALF 2).
Proof.
  assert (H : scaled 6755399441055744 (-52) 2 <= 2000)
    by (vm_compute; discriminate).
  split; [exact H|].
  exact (proj1 (@X10_numerals_agree false 6755399441055744 (-52) H)).
Defined.

(** X11. Every voice of [VOICE_CHOICES] and every emotion of
    [EMOTION_TAGS], the values the two dropdowns offer, is free of newlines
    and of characters that [json.dumps] escapes: with them the description
    is the seventeen lines of X1 for every text and every three floats, and
    the metrics show the voice and the emotion between quotes as they
    are. *)
Theorem X11_interface_choices text voice emotion speed temperature top_p :
  In voice VOICE_CHOICES -> In emotion EMOTION_TAGS ->
  _build_summary_text text voice emotion speed temperature top_p
  = join LF (description_lines voice emotion speed temperature top_p
               (preview_of text))
  /\ encode_str voice = quoted voice
  /\ encode_str emotion = quoted emotion.
Proof.
  intros Hv He.
  assert (Cv : ~ In LF voice /\ encode_str voice = quoted voice).
  { unfold VOICE_CHOICES in Hv. cbn [In] in Hv.
    repeat (destruct Hv as [<-|Hv];
            [split; [apply no_lf_check|]; vm_compute; reflexivity|]).
    contradiction. }
  assert (Ce : ~ In LF emotion /\ encode_str emotion = quoted emotion).
  { unfold EMOTION_TAGS in He. cbn [In] in He.
    repeat (destruct He as [<-|He];
            [split; [apply no_lf_check|]; vm_compute; reflexivity|]).
    contradiction. }
  destruct Cv as [Nv Qv], Ce as [Ne Qe].
  split; [apply build_summary_layout; assumption|]. split; assumption.
Qed.

Lemma X11_interface_choices_witness :
  In (py "tara（通用女声）") VOICE_CHOICES
  /\ In (py "中性 <neutral>") EMOTION_TAGS
  /\ encode_str (py "tara（通用女声）") = quoted (py "tara（通用女声）")
  /\ encode_str (py "中性 <neutral>") = quoted (py "中性 <neutral>").
Proof.
  assert (Hv : In (py "tara（通用女声）") VOICE_CHOICES)
    by (unfold VOICE_CHOICES; left; reflexivity).
  assert (He : In (py "中性 <neutral>") EMOTION_TAGS)
    by (unfold EMOTION_TAGS; left; reflexivity).
  split; [exact Hv|]. split; [exact He|].
  exact (proj2 (@X11_interface_choices HELLO _ _ (literal 10 1)
                  (literal 6 1) (literal 9 1) Hv He)).
Defined.
